(** * FileStreamClient: command construction and process plumbing

    A shallow embedding of
    [tools/xstore/core/backup_restore/storage/filestream_client.py].

    The module builds argument lists for an external file-transfer binary,
    spawns it with a stream attached, waits for it and turns a non-zero exit
    code into a [FilestreamException].  The embedding keeps the source's
    shape: the two enumerations, the client object with its six attributes,
    one function per method, Python exceptions as an error result, and the
    operating system (file table, descriptors, child processes) as an
    explicit state threaded through the methods. *)

From stdpp Require Import gmap strings pretty list fin_maps.
From Stdlib Require Import ZArith.

Local Open Scope Z_scope.

(** ** Enumerations *)

(** [class BackupStorage(Enum)] *)
Inductive BackupStorage := OSS | SFTP | S3.

(** [class ClientAction(Enum)] *)
Inductive ClientAction :=
  | DownloadOss | UploadOss
  | DownloadSsh | UploadSsh
  | DownloadMinio | UploadMinio.

(** The [.value] of an action, with the source's spelling (note the capital
    D of [DownloadSsh]). *)
Definition value (a : ClientAction) : string :=
  match a with
  | DownloadOss => "downloadOss"
  | UploadOss => "uploadOss"
  | DownloadSsh => "DownloadSsh"
  | UploadSsh => "uploadSsh"
  | DownloadMinio => "downloadMinio"
  | UploadMinio => "uploadMinio"
  end.

#[global] Instance BackupStorage_eq_dec : EqDecision BackupStorage.
Proof. solve_decision. Defined.

#[global] Instance ClientAction_eq_dec : EqDecision ClientAction.
Proof. solve_decision. Defined.

(** ** Python values and exceptions *)

(** The [storage] argument is annotated [BackupStorage] but Python does not
    enforce it: [init_action] ends in an [else] for every other object. *)
Inductive pyobj :=
  | PyEnum (b : BackupStorage)
  | PyNone
  | PyStr (s : string)
  | PyInt (z : Z).

(** [==] on a plain [Enum] member is identity: a member equals itself and
    nothing else, in particular not the string that is its value. *)
Definition py_eq (x y : pyobj) : bool :=
  match x, y with
  | PyEnum a, PyEnum b => bool_decide (a = b)
  | PyNone, PyNone => true
  | PyStr s, PyStr t => bool_decide (s = t)
  | PyInt m, PyInt n => bool_decide (m = n)
  | _, _ => false
  end.

Inductive exn :=
  | NotImplementedError
  | FilestreamException (msg : string)
  | OSError (filename : string)
  | AttributeError.

Inductive result (A : Type) :=
  | Ok (a : A)
  | Raise (e : exn).
Arguments Ok {A} a.
Arguments Raise {A} e.

(** ** The client object *)

(** What [core.context.Context] provides to this module: two opaque
    strings. *)
Record Context := {
  filestream_client : string;
  host_info : string
}.

Record FileStreamClient := {
  _client : string;
  _host_info : string;
  _storage : pyobj;
  _sink : string;
  _download_action : option ClientAction;
  _upload_action : option ClientAction
}.

Definition set_actions (self : FileStreamClient) (d u : ClientAction)
  : FileStreamClient :=
  {| _client := _client self;
     _host_info := _host_info self;
     _storage := _storage self;
     _sink := _sink self;
     _download_action := Some d;
     _upload_action := Some u |}.

(** [def init_action(self)] *)
Definition init_action (self : FileStreamClient) : result FileStreamClient :=
  if py_eq (_storage self) (PyEnum OSS) then
    Ok (set_actions self DownloadOss UploadOss)
  else if py_eq (_storage self) (PyEnum SFTP) then
    Ok (set_actions self DownloadSsh UploadSsh)
  else if py_eq (_storage self) (PyEnum S3) then
    Ok (set_actions self DownloadMinio UploadMinio)
  else
    Raise NotImplementedError.

(** [def __init__(self, context, storage, sink)] *)
Definition FileStreamClient__init__
    (context : Context) (storage : pyobj) (sink : string)
  : result FileStreamClient :=
  init_action
    {| _client := filestream_client context;
       _host_info := host_info context;
       _storage := storage;
       _sink := sink;
       _download_action := None;
       _upload_action := None |}.

(** ** Command construction *)

(** [x.value] where [x] may still be [None]. *)
Definition action_value (a : option ClientAction) : result string :=
  match a with
  | Some act => Ok (value act)
  | None => Raise AttributeError
  end.

(** The list literal both methods start from. *)
Definition base_cmd (self : FileStreamClient) (action remote_path : string)
  : list string :=
  [ _client self;
    "--meta.action=" +:+ action;
    "--meta.sink=" +:+ _sink self;
    "--meta.filename=" +:+ remote_path;
    "--hostInfoFilePath=" +:+ _host_info self ].

(** [cmd.append(x)] under a condition. *)
Definition append_if (c : bool) (x : string) (cmd : list string)
  : list string :=
  if c then cmd ++ [x] else cmd.

(** Lines 66-81 of [upload_from_stdin]: the four conditional appends, in the
    source's order. [file_size != ""] is [negb (bool_decide (file_size = ""))]. *)
Definition upload_cmd (self : FileStreamClient) (remote_path : string)
    (is_string_input : bool) (file_size : string) : result (list string) :=
  match action_value (_upload_action self) with
  | Raise e => Raise e
  | Ok act =>
    let c0 := base_cmd self act remote_path in
    let c1 := append_if (is_string_input && py_eq (_storage self) (PyEnum OSS))
                "--meta.ossBufferSize=102400" c0 in
    let c2 := append_if (is_string_input && py_eq (_storage self) (PyEnum S3))
                "--meta.minioBufferSize=102400" c1 in
    let c3 := append_if (negb (bool_decide (file_size = ""))
                         && py_eq (_storage self) (PyEnum OSS))
                ("--meta.ossBufferSize=" +:+ file_size) c2 in
    let c4 := append_if (negb (bool_decide (file_size = ""))
                         && py_eq (_storage self) (PyEnum S3))
                ("--meta.minioBufferSize=" +:+ file_size) c3 in
    Ok c4
  end.

(** Lines 92-98 of [download_to_stdout]. *)
Definition download_cmd (self : FileStreamClient) (remote_path : string)
  : result (list string) :=
  match action_value (_download_action self) with
  | Raise e => Raise e
  | Ok act => Ok (base_cmd self act remote_path)
  end.

(** An argument that sets a buffer size, under either of its two names. *)
Definition is_buffer_flag (arg : string) : bool :=
  String.prefix "--meta.ossBufferSize=" arg
  || String.prefix "--meta.minioBufferSize=" arg.

(** The buffer-size arguments of a command; its first element is the
    executable, not an argument. *)
Definition buffer_flags (cmd : list string) : list string :=
  List.filter is_buffer_flag (tail cmd).

(** ** The operating system

    What the methods touch outside the interpreter: local files, file
    descriptors, the interpreter's own standard streams, and programs run as
    child processes.  A program is a function of its argument list, of the
    bytes on its standard input and of the state of everything external (the
    remote storage); [None] means that the program cannot be started, which
    makes [subprocess.Popen] raise [OSError]. *)

Abbreviation bytes := (list Byte.byte).

Class OS := {
  ext : Type;
  exec : list string → bytes → ext → option (Z * bytes * ext)
}.

(** A child that was started and waited for. *)
Record process := {
  args : list string;
  input : bytes;
  returncode : Z
}.

Record world `{OS} := {
  files : gmap string bytes;        (* path -> content *)
  unreadable : gset string;         (* paths [open(p, "r")] fails on *)
  unwritable : gset string;         (* paths [open(p, "w")] fails on *)
  open_fds : gmap nat string;       (* open descriptor -> path *)
  spawned : list process;           (* children so far, oldest first *)
  outside : ext;
  own_stdin : bytes;                (* what an inherited stdin supplies *)
  own_stdout : bytes;               (* what went to an inherited stdout *)
  log : list (string * list string) (* [logger.info] records *)
}.

Section System.
Context `{OS}.

Definition set_files (f : gmap string bytes) (w : world) : world :=
  {| files := f; unreadable := unreadable w; unwritable := unwritable w;
     open_fds := open_fds w; spawned := spawned w; outside := outside w;
     own_stdin := own_stdin w; own_stdout := own_stdout w; log := log w |}.

Definition set_open_fds (d : gmap nat string) (w : world) : world :=
  {| files := files w; unreadable := unreadable w; unwritable := unwritable w;
     open_fds := d; spawned := spawned w; outside := outside w;
     own_stdin := own_stdin w; own_stdout := own_stdout w; log := log w |}.

Definition set_own_stdout (o : bytes) (w : world) : world :=
  {| files := files w; unreadable := unreadable w; unwritable := unwritable w;
     open_fds := open_fds w; spawned := spawned w; outside := outside w;
     own_stdin := own_stdin w; own_stdout := o; log := log w |}.

Definition set_log (l : list (string * list string)) (w : world) : world :=
  {| files := files w; unreadable := unreadable w; unwritable := unwritable w;
     open_fds := open_fds w; spawned := spawned w; outside := outside w;
     own_stdin := own_stdin w; own_stdout := own_stdout w; log := l |}.

(** The child has run: it is recorded and the external state is the one it
    left. *)
Definition child_ran (p : process) (e : ext) (w : world) : world :=
  {| files := files w; unreadable := unreadable w; unwritable := unwritable w;
     open_fds := open_fds w; spawned := spawned w ++ [p]; outside := e;
     own_stdin := own_stdin w; own_stdout := own_stdout w; log := log w |}.

(** Computations that may raise and that change the world. *)
Definition M (A : Type) : Type := world → result A * world.

Definition ret {A} (a : A) : M A := λ w, (Ok a, w).

Definition raise {A} (e : exn) : M A := λ w, (Raise e, w).

Definition bind {A B} (m : M A) (k : A → M B) : M B :=
  λ w, match m w with
       | (Ok a, w1) => k a w1
       | (Raise e, w1) => (Raise e, w1)
       end.

(** A pure step that may raise. *)
Definition lift {A} (r : result A) : M A := λ w, (r, w).

(** [open(path, "r")]: the file must exist and be readable. *)
Definition open_r (path : string) : M nat :=
  λ w, match files w !! path with
       | Some _ =>
         if decide (path ∈ unreadable w) then (Raise (OSError path), w)
         else let fd := fresh (dom (open_fds w)) in
              (Ok fd, set_open_fds (<[fd := path]> (open_fds w)) w)
       | None => (Raise (OSError path), w)
       end.

(** [open(path, "w")]: creates the file or truncates it. *)
Definition open_w (path : string) : M nat :=
  λ w, if decide (path ∈ unwritable w) then (Raise (OSError path), w)
       else let fd := fresh (dom (open_fds w)) in
            (Ok fd, set_open_fds (<[fd := path]> (open_fds w))
                      (set_files (<[path := []]> (files w)) w)).

Definition close (fd : nat) (w : world) : world :=
  set_open_fds (delete fd (open_fds w)) w.

(** [with acquire as f: body]: the descriptor is closed when the body is
    left, normally or by an exception; a failed [open] never enters it. *)
Definition with_file {A} (acquire : M nat) (body : nat → M A) : M A :=
  λ w, match acquire w with
       | (Ok fd, w1) => let '(r, w2) := body fd w1 in (r, close fd w2)
       | (Raise e, w1) => (Raise e, w1)
       end.

(** [os.path.getsize(path)] *)
Definition getsize (path : string) : M nat :=
  λ w, match files w !! path with
       | Some content => (Ok (length content), w)
       | None => (Raise (OSError path), w)
       end.

(** What [Popen]'s [stdin=] and [stdout=] can be in this module.  Left out
    ([None]) the child inherits the interpreter's stream. *)
Inductive stdin_of :=
  | InInherited
  | InFile (fd : nat)
  | InPipe (data : bytes).   (* read end of a pipe holding [data] *)

Inductive stdout_of :=
  | OutInherited
  | OutFile (fd : nat)
  | OutPipe.                 (* [subprocess.PIPE] *)

Definition read_stdin (s : stdin_of) (w : world) : option bytes :=
  match s with
  | InInherited => Some (own_stdin w)
  | InFile fd => path ← open_fds w !! fd; files w !! path
  | InPipe data => Some data
  end.

(** Where the child's output goes; a pipe hands it to the caller. *)
Definition write_stdout (s : stdout_of) (out : bytes) (w : world)
  : option (bytes * world) :=
  match s with
  | OutInherited => Some ([], set_own_stdout (own_stdout w ++ out) w)
  | OutFile fd =>
    path ← open_fds w !! fd;
    old ← files w !! path;
    Some ([], set_files (<[path := old ++ out]> (files w)) w)
  | OutPipe => Some (out, w)
  end.

(** [with subprocess.Popen(cmd, stdin=.., stdout=..) as p: p.wait()]:
    the exit code, and the piped output when [stdout] is a pipe.  The
    [stderr] argument only redirects the child's diagnostics and is left
    out. *)
Definition Popen (cmd : list string) (sin : stdin_of) (sout : stdout_of)
  : M (Z * bytes) :=
  λ w, match read_stdin sin w with
       | None => (Raise (OSError "stdin"), w)
       | Some data =>
         match exec cmd data (outside w) with
         | None => (Raise (OSError (default "" (head cmd))), w)
         | Some (code, out, e) =>
           let w1 := child_ran {| args := cmd; input := data;
                                  returncode := code |} e w in
           match write_stdout sout out w1 with
           | None => (Raise (OSError "stdout"), w1)
           | Some (piped, w2) => (Ok (code, piped), w2)
           end
         end
       end.

(** [if logger: logger.info(label % cmd)] *)
Definition log_info (logger : bool) (label : string) (cmd : list string)
  : M unit :=
  λ w, if logger then (Ok (), set_log (log w ++ [(label, cmd)]) w)
       else (Ok (), w).

(** [if return_code:] *)
Definition truthy (return_code : Z) : bool := negb (return_code =? 0).

(** [def upload_from_stdin(self, remote_path, stdin, stderr, logger,
    is_string_input=False, file_size="")] *)
Definition upload_from_stdin (self : FileStreamClient) (remote_path : string)
    (stdin : stdin_of) (logger : bool) (is_string_input : bool)
    (file_size : string) : M unit :=
  bind (lift (upload_cmd self remote_path is_string_input file_size))
    (λ cmd,
  bind (log_info logger "Upload command: " cmd) (λ _,
  bind (Popen cmd stdin OutInherited) (λ '(return_code, _),
  if truthy return_code then
    raise (FilestreamException
             ("Failed to upload, return code: " +:+ pretty return_code))
  else ret ()))).

(** [def download_to_stdout(self, remote_path, stdout, stderr, logger)] *)
Definition download_to_stdout (self : FileStreamClient) (remote_path : string)
    (stdout : stdout_of) (logger : bool) : M unit :=
  bind (lift (download_cmd self remote_path)) (λ cmd,
  bind (log_info logger "Download command: " cmd) (λ _,
  bind (Popen cmd InInherited stdout) (λ '(return_code, _),
  if truthy return_code then
    raise (FilestreamException
             ("Failed to download, return code: " +:+ pretty return_code))
  else ret ()))).

(** [def upload_from_file(self, remote, local, stderr, logger)] *)
Definition upload_from_file (self : FileStreamClient) (remote local : string)
    (logger : bool) : M unit :=
  with_file (open_r local) (λ f,
    bind (getsize local) (λ file_size,
    upload_from_stdin self remote (InFile f) logger false
      (pretty file_size))).

(** [def download_to_file(self, remote, local, stderr, logger)] *)
Definition download_to_file (self : FileStreamClient) (remote local : string)
    (logger : bool) : M unit :=
  with_file (open_w local) (λ f,
    download_to_stdout self remote (OutFile f) logger).

(** [def upload_from_string(self, remote, string, stderr, logger)]: the
    [echo] child writes into a pipe whose read end is the upload child's
    standard input; leaving the [with] waits for [echo] and drops its exit
    code. *)
Definition upload_from_string (self : FileStreamClient) (remote string : string)
    (logger : bool) : M unit :=
  let echo_cmd := ["echo"; string] in
  bind (Popen echo_cmd InInherited OutPipe) (λ '(_, pipe_stdout),
    upload_from_stdin self remote (InPipe pipe_stdout) logger true "").

End System.

(** ** Stub systems and sample data *)

Definition newline : Byte.byte := Byte.x0a.

(** A binary that copies its own standard input to its own standard output
    and exits with 0, whatever its arguments: [cat]. *)
Definition cat_os : OS := {|
  ext := unit;
  exec := λ _ data e, Some (0, data, e)
|}.

(** A loop-back store.  [echo] prints its arguments and a newline.  Any
    other program is read as the transfer binary: an upload action keeps its
    standard input under the [--meta.filename=] argument, a download action
    prints what is kept there, or exits with 1 when nothing is. *)
Definition loopback_exec (cmd : list string) (data : bytes)
    (store : gmap string bytes) : option (Z * bytes * gmap string bytes) :=
  match cmd with
  | "echo" :: words =>
    Some (0, String.list_byte_of_string (String.concat " " words) ++ [newline],
          store)
  | _ :: action :: _ :: filename :: _ =>
    if String.prefix "--meta.action=upload" action then
      Some (0, [], <[filename := data]> store)
    else
      match store !! filename with
      | Some kept => Some (0, kept, store)
      | None => Some (1, [], store)
      end
  | _ => None
  end.

Definition loopback_os : OS := {|
  ext := gmap string bytes;
  exec := loopback_exec
|}.

Definition sample_context : Context :=
  {| filestream_client := "/tools/xstore/bin/filestream-client";
     host_info := "/tools/xstore/hostinfo" |}.

(** The object [FileStreamClient(sample_context, b, "backup")] is. *)
Definition sample_client (b : BackupStorage) : FileStreamClient :=
  match FileStreamClient__init__ sample_context (PyEnum b) "backup" with
  | Ok self => self
  | Raise _ =>
    {| _client := ""; _host_info := ""; _storage := PyNone; _sink := "";
       _download_action := None; _upload_action := None |}
  end.

Definition abc : bytes := String.list_byte_of_string "abc".

(** One readable file [a.txt] holding [abc], one path that cannot be
    written, nothing open, nothing spawned, an empty standard input. *)
Definition sample_world `{OS} (e : ext) : world :=
  {| files := {[ "a.txt" := abc ]};
     unreadable := ∅;
     unwritable := {[ "/proc/ro.txt" ]};
     open_fds := ∅;
     spawned := [];
     outside := e;
     own_stdin := [];
     own_stdout := [];
     log := [] |}.

(** [upload_from_file("full/a.txt", "a.txt")] and then
    [download_to_file("full/a.txt", "b.txt")] by an OSS client, run with
    [cat] as the transfer binary. *)
Definition cat_uploaded : result unit * @world cat_os :=
  @upload_from_file cat_os (sample_client OSS) "full/a.txt" "a.txt" false
    (@sample_world cat_os tt).

Definition cat_downloaded : result unit * @world cat_os :=
  @download_to_file cat_os (sample_client OSS) "full/a.txt" "b.txt" false
    cat_uploaded.2.

(** A machine on which no program can be started. *)
Definition no_binary_os : OS := {|
  ext := unit;
  exec := λ _ _ _, None
|}.

(** The loop-back store on a machine whose [echo] is broken: it prints
    nothing and exits with 1. *)
Definition failing_echo_exec (cmd : list string) (data : bytes)
    (store : gmap string bytes) : option (Z * bytes * gmap string bytes) :=
  match cmd with
  | "echo" :: _ => Some (1, [], store)
  | _ => loopback_exec cmd data store
  end.

Definition failing_echo_os : OS := {|
  ext := gmap string bytes;
  exec := failing_echo_exec
|}.

(** A binary sends back on download what it took in on upload: for the
    commands this client builds for [remote_path], the upload exits with 0
    and, in the state it leaves, the download exits with 0 having written
    exactly the uploaded bytes. *)
Definition returns_what_was_uploaded `{OS} (self : FileStreamClient)
    (remote_path : string) : Prop :=
  ∀ up down file_size data e,
    upload_cmd self remote_path false file_size = Ok up →
    download_cmd self remote_path = Ok down →
    ∃ out e1, exec up data e = Some (0, out, e1) ∧
      ∀ data', ∃ e2, exec down data' e1 = Some (0, data, e2).

(** * Properties *)

(** ** Construction *)

Lemma py_eq_enum (b c : BackupStorage) :
  py_eq (PyEnum b) (PyEnum c) = bool_decide (b = c).
Proof. reflexivity. Qed.

Lemma py_eq_not_enum (v : pyobj) (c : BackupStorage) :
  (∀ b, v ≠ PyEnum b) → py_eq v (PyEnum c) = false.
Proof.
  intros Hv. destruct v as [b| | |]; try reflexivity.
  now destruct (Hv b).
Qed.

(** What a successful construction has built. *)
Lemma init_inv (context : Context) (storage : pyobj) (sink : string)
    (self : FileStreamClient) :
  FileStreamClient__init__ context storage sink = Ok self →
  ∃ b, storage = PyEnum b ∧
    _client self = filestream_client context ∧
    _host_info self = host_info context ∧
    _storage self = PyEnum b ∧
    _sink self = sink ∧
    _download_action self =
      Some match b with OSS => DownloadOss | SFTP => DownloadSsh
                   | S3 => DownloadMinio end ∧
    _upload_action self =
      Some match b with OSS => UploadOss | SFTP => UploadSsh
                   | S3 => UploadMinio end.
Proof.
  unfold FileStreamClient__init__, init_action. cbn [_storage].
  destruct storage as [[ | | ]| | |]; cbn; intros Hinit;
    try discriminate Hinit; injection Hinit as <-.
  - exists OSS. now repeat split.
  - exists SFTP. now repeat split.
  - exists S3. now repeat split.
Qed.

(** C3: each of the three members of [BackupStorage] constructs, and the
    object built holds exactly the download and upload action of its
    backend: OSS gives (DownloadOss, UploadOss), SFTP gives (DownloadSsh,
    UploadSsh), S3 gives (DownloadMinio, UploadMinio); neither attribute is
    left at [None]. *)
Theorem init_action_pairing (context : Context) (b : BackupStorage)
    (sink : string) :
  ∃ self, FileStreamClient__init__ context (PyEnum b) sink = Ok self ∧
    (_download_action self, _upload_action self) =
      match b with
      | OSS => (Some DownloadOss, Some UploadOss)
      | SFTP => (Some DownloadSsh, Some UploadSsh)
      | S3 => (Some DownloadMinio, Some UploadMinio)
      end ∧
    _download_action self ≠ None ∧ _upload_action self ≠ None.
Proof.
  destruct b; (eexists; split; [reflexivity|]); cbn; repeat split; discriminate.
Qed.

(** C4: a storage value that is no member of [BackupStorage] makes the
    constructor itself raise [NotImplementedError]; no client object comes
    out of it, so no method can be reached with it. *)
Theorem init_unsupported_storage (context : Context) (storage : pyobj)
    (sink : string) :
  (∀ b, storage ≠ PyEnum b) →
  FileStreamClient__init__ context storage sink = Raise NotImplementedError.
Proof.
  intros Hother. unfold FileStreamClient__init__, init_action. cbn [_storage].
  now rewrite !py_eq_not_enum.
Qed.

(** The value of an enum member is not the member: the string ["OSS"] is
    refused. *)
Lemma init_unsupported_storage_witness :
  (∀ b, PyStr "OSS" ≠ PyEnum b) ∧
  FileStreamClient__init__ sample_context (PyStr "OSS") "backup"
    = Raise NotImplementedError.
Proof.
  split; [discriminate|].
  apply (init_unsupported_storage sample_context (PyStr "OSS") "backup").
  discriminate.
Defined.

(** ** Commands *)

(** None of the four fixed arguments is a buffer-size flag, whatever the
    strings put into them. *)
Lemma base_cmd_no_buffer_flag (self : FileStreamClient)
    (action remote_path : string) :
  buffer_flags (base_cmd self action remote_path) = [].
Proof. reflexivity. Qed.

Lemma buffer_flags_app (cmd extra : list string) :
  cmd ≠ [] →
  buffer_flags (cmd ++ extra) = buffer_flags cmd ++ List.filter is_buffer_flag extra.
Proof.
  destruct cmd as [|exe rest]; [congruence|]. intros _.
  unfold buffer_flags. cbn [app tail]. apply List.filter_app.
Qed.

Lemma is_buffer_flag_oss (n : string) :
  is_buffer_flag ("--meta.ossBufferSize=" +:+ n) = true.
Proof. destruct n; reflexivity. Qed.

Lemma is_buffer_flag_minio (n : string) :
  is_buffer_flag ("--meta.minioBufferSize=" +:+ n) = true.
Proof. destruct n; reflexivity. Qed.

(** The upload command of a constructed client, for every backend and
    every pair of optional arguments. *)
Lemma upload_cmd_constructed (context : Context) (b : BackupStorage)
    (sink : string) (self : FileStreamClient) (remote_path : string)
    (is_string_input : bool) (file_size : string) :
  FileStreamClient__init__ context (PyEnum b) sink = Ok self →
  ∃ act, _upload_action self = Some act ∧
    upload_cmd self remote_path is_string_input file_size =
      Ok (base_cmd self (value act) remote_path
          ++ match b with
             | OSS =>
               (if is_string_input then ["--meta.ossBufferSize=102400"] else [])
               ++ (if bool_decide (file_size = "") then []
                   else ["--meta.ossBufferSize=" +:+ file_size])
             | SFTP => []
             | S3 =>
               (if is_string_input then ["--meta.minioBufferSize=102400"] else [])
               ++ (if bool_decide (file_size = "") then []
                   else ["--meta.minioBufferSize=" +:+ file_size])
             end).
Proof.
  intros Hinit.
  destruct (init_inv _ _ _ _ Hinit) as (b' & [= <-] & _ & _ & Hst & _ & _ & Hup).
  eexists. split; [exact Hup|].
  unfold upload_cmd. rewrite Hup, Hst. cbn [action_value].
  rewrite !py_eq_enum.
  destruct b, is_string_input, (bool_decide (file_size = "")); reflexivity.
Qed.

(** C1 (as the code has it): with a non-empty [file_size], the upload
    command of an OSS or S3 client ends with that backend's buffer-size
    flag carrying exactly [file_size]; an SFTP client's command has no
    buffer-size flag.  When [is_string_input] is set as well, nothing is
    replaced: the 102400 flag is appended first and the [file_size] flag
    after it, so the [file_size] flag is the last of the two. *)
Theorem upload_cmd_size_hint (context : Context) (b : BackupStorage)
    (sink : string) (self : FileStreamClient) (remote_path : string)
    (is_string_input : bool) (file_size : string) :
  FileStreamClient__init__ context (PyEnum b) sink = Ok self →
  file_size ≠ "" →
  ∃ act cmd, _upload_action self = Some act ∧
    upload_cmd self remote_path is_string_input file_size = Ok cmd ∧
    cmd = base_cmd self (value act) remote_path ++ buffer_flags cmd ∧
    buffer_flags cmd =
      match b, is_string_input with
      | OSS, false => ["--meta.ossBufferSize=" +:+ file_size]
      | OSS, true => ["--meta.ossBufferSize=102400";
                      "--meta.ossBufferSize=" +:+ file_size]
      | SFTP, _ => []
      | S3, false => ["--meta.minioBufferSize=" +:+ file_size]
      | S3, true => ["--meta.minioBufferSize=102400";
                     "--meta.minioBufferSize=" +:+ file_size]
      end ∧
    (b ≠ SFTP → last cmd = last (buffer_flags cmd) ∧
                last cmd = Some ((if bool_decide (b = OSS)
                                  then "--meta.ossBufferSize="
                                  else "--meta.minioBufferSize=") +:+ file_size)).
Proof.
  intros Hinit Hsize.
  destruct (upload_cmd_constructed _ _ _ _ remote_path is_string_input
              file_size Hinit) as (act & Hact & Hcmd).
  rewrite bool_decide_eq_false_2 in Hcmd by exact Hsize.
  eexists act, _. split; [exact Hact|]. split; [exact Hcmd|].
  rewrite buffer_flags_app by discriminate.
  rewrite base_cmd_no_buffer_flag. cbn [app].
  destruct b, is_string_input; cbn [List.filter app];
    rewrite ?is_buffer_flag_oss, ?is_buffer_flag_minio;
    (split; [reflexivity|]); (split; [reflexivity|]);
    intros Hb; try congruence; split; reflexivity.
Qed.

Lemma upload_cmd_size_hint_witness :
  ∃ act cmd, _upload_action (sample_client S3) = Some act ∧
    upload_cmd (sample_client S3) "full/backup.xbstream" true "4096" = Ok cmd ∧
    cmd = base_cmd (sample_client S3) (value act) "full/backup.xbstream"
          ++ buffer_flags cmd ∧
    buffer_flags cmd =
      ["--meta.minioBufferSize=102400"; "--meta.minioBufferSize=4096"] ∧
    (S3 ≠ SFTP → last cmd = last (buffer_flags cmd) ∧
                 last cmd = Some "--meta.minioBufferSize=4096").
Proof.
  apply (upload_cmd_size_hint sample_context S3 "backup" (sample_client S3)
           "full/backup.xbstream" true "4096"); [reflexivity | discriminate].
Defined.

(** C1 fails as stated at two inputs.  An SFTP client given the size hint
    ["4096"] builds the five fixed elements and no buffer-size flag at all.
    An OSS client given both [is_string_input] and the size hint ["4096"]
    keeps the 102400 flag in the command next to the size-hint one. *)
Lemma upload_cmd_size_hint_counterexample :
  FileStreamClient__init__ sample_context (PyEnum SFTP) "backup"
    = Ok (sample_client SFTP) ∧
  upload_cmd (sample_client SFTP) "full/backup.xbstream" false "4096" =
    Ok [ "/tools/xstore/bin/filestream-client";
         "--meta.action=uploadSsh";
         "--meta.sink=backup";
         "--meta.filename=full/backup.xbstream";
         "--hostInfoFilePath=/tools/xstore/hostinfo" ] ∧
  FileStreamClient__init__ sample_context (PyEnum OSS) "backup"
    = Ok (sample_client OSS) ∧
  upload_cmd (sample_client OSS) "full/backup.xbstream" true "4096" =
    Ok [ "/tools/xstore/bin/filestream-client";
         "--meta.action=uploadOss";
         "--meta.sink=backup";
         "--meta.filename=full/backup.xbstream";
         "--hostInfoFilePath=/tools/xstore/hostinfo";
         "--meta.ossBufferSize=102400";
         "--meta.ossBufferSize=4096" ].
Proof. repeat split; reflexivity. Qed.

(** C5: called with [is_string_input=True] and no size hint, the upload
    command is the five fixed elements followed by
    [--meta.ossBufferSize=102400] on OSS, by [--meta.minioBufferSize=102400]
    on S3, and by nothing on SFTP, whose command has no buffer-size flag. *)
Theorem upload_cmd_string_input (context : Context) (b : BackupStorage)
    (sink : string) (self : FileStreamClient) (remote_path : string) :
  FileStreamClient__init__ context (PyEnum b) sink = Ok self →
  ∃ act cmd, _upload_action self = Some act ∧
    upload_cmd self remote_path true "" = Ok cmd ∧
    cmd = base_cmd self (value act) remote_path ++ buffer_flags cmd ∧
    buffer_flags cmd =
      match b with
      | OSS => ["--meta.ossBufferSize=102400"]
      | SFTP => []
      | S3 => ["--meta.minioBufferSize=102400"]
      end.
Proof.
  intros Hinit.
  destruct (upload_cmd_constructed _ _ _ _ remote_path true "" Hinit)
    as (act & Hact & Hcmd).
  eexists act, _. split; [exact Hact|]. split; [exact Hcmd|].
  rewrite buffer_flags_app by discriminate.
  rewrite base_cmd_no_buffer_flag.
  destruct b; split; reflexivity.
Qed.

Lemma upload_cmd_string_input_witness :
  ∃ act cmd, _upload_action (sample_client OSS) = Some act ∧
    upload_cmd (sample_client OSS) "meta/binlog.idx" true "" = Ok cmd ∧
    cmd = base_cmd (sample_client OSS) (value act) "meta/binlog.idx"
          ++ buffer_flags cmd ∧
    buffer_flags cmd = ["--meta.ossBufferSize=102400"].
Proof.
  apply (upload_cmd_string_input sample_context OSS "backup"
           (sample_client OSS) "meta/binlog.idx"). reflexivity.
Defined.

(** C10: the download command is exactly five elements, in this order: the
    executable, [--meta.action=] with the backend's download action,
    [--meta.sink=], [--meta.filename=] with the remote path,
    [--hostInfoFilePath=]; none of its arguments is a buffer-size flag. *)
Theorem download_cmd_shape (context : Context) (b : BackupStorage)
    (sink : string) (self : FileStreamClient) (remote_path : string) :
  FileStreamClient__init__ context (PyEnum b) sink = Ok self →
  ∃ cmd, download_cmd self remote_path = Ok cmd ∧
    cmd = [ filestream_client context;
            "--meta.action=" +:+
              value match b with OSS => DownloadOss | SFTP => DownloadSsh
                            | S3 => DownloadMinio end;
            "--meta.sink=" +:+ sink;
            "--meta.filename=" +:+ remote_path;
            "--hostInfoFilePath=" +:+ host_info context ] ∧
    length cmd = 5%nat ∧
    buffer_flags cmd = [].
Proof.
  intros Hinit.
  destruct (init_inv _ _ _ _ Hinit)
    as (b' & [= <-] & Hcl & Hhi & _ & Hsk & Hdown & _).
  eexists. split.
  - unfold download_cmd. rewrite Hdown. reflexivity.
  - unfold base_cmd. rewrite Hcl, Hhi, Hsk. repeat split.
Qed.

Lemma download_cmd_shape_witness :
  ∃ cmd, download_cmd (sample_client SFTP) "full/backup.xbstream" = Ok cmd ∧
    cmd = [ "/tools/xstore/bin/filestream-client";
            "--meta.action=DownloadSsh";
            "--meta.sink=backup";
            "--meta.filename=full/backup.xbstream";
            "--hostInfoFilePath=/tools/xstore/hostinfo" ] ∧
    length cmd = 5%nat ∧
    buffer_flags cmd = [].
Proof.
  apply (download_cmd_shape sample_context SFTP "backup" (sample_client SFTP)
           "full/backup.xbstream"). reflexivity.
Defined.

(** ** Transfers *)

Section Transfers.
Context `{OS}.

Implicit Types (w : world) (self : FileStreamClient) (cmd : list string).

Lemma read_stdin_set_log (s : stdin_of) l w :
  read_stdin s (set_log l w) = read_stdin s w.
Proof. destruct s; reflexivity. Qed.

(** A descriptor taken by [open] is new, so closing it gives the table
    back as it was. *)
Lemma close_fresh (path : string) (fds : gmap nat string) :
  delete (fresh (dom fds)) (<[fresh (dom fds) := path]> fds) = fds.
Proof.
  apply delete_insert_id, not_elem_of_dom, is_fresh.
Qed.

(** [upload_from_stdin] when the command is built, the input can be read
    and the program starts: the result follows the exit code, and the world
    gains one child and what it printed. *)
Lemma upload_from_stdin_run self (remote_path : string) (stdin : stdin_of)
    (logger is_string_input : bool) (file_size : string) w cmd
    (data out : bytes) (code : Z) (e : ext) :
  upload_cmd self remote_path is_string_input file_size = Ok cmd →
  read_stdin stdin w = Some data →
  exec cmd data (outside w) = Some (code, out, e) →
  ∃ w', upload_from_stdin self remote_path stdin logger is_string_input
          file_size w
        = (if truthy code
           then Raise (FilestreamException
                         ("Failed to upload, return code: " +:+ pretty code))
           else Ok (), w') ∧
    files w' = files w ∧ open_fds w' = open_fds w ∧
    unreadable w' = unreadable w ∧ unwritable w' = unwritable w ∧
    own_stdin w' = own_stdin w ∧ own_stdout w' = own_stdout w ++ out ∧
    outside w' = e ∧
    spawned w' = spawned w ++ [{| args := cmd; input := data;
                                  returncode := code |}].
Proof.
  intros Hcmd Hin Hexec.
  unfold upload_from_stdin, bind, lift, log_info, Popen, raise, ret.
  rewrite Hcmd.
  destruct logger; rewrite ?read_stdin_set_log, Hin; cbn [outside set_log];
    rewrite Hexec; cbn [write_stdout]; destruct (truthy code);
    (eexists; split; [reflexivity|]); cbn; repeat split.
Qed.

(** The same when the program cannot be started: [Popen] raises and no
    child is recorded. *)
Lemma upload_from_stdin_not_started self (remote_path : string)
    (stdin : stdin_of) (logger is_string_input : bool) (file_size : string)
    w cmd (data : bytes) :
  upload_cmd self remote_path is_string_input file_size = Ok cmd →
  read_stdin stdin w = Some data →
  exec cmd data (outside w) = None →
  ∃ w', upload_from_stdin self remote_path stdin logger is_string_input
          file_size w
        = (Raise (OSError (default "" (head cmd))), w') ∧
    files w' = files w ∧ open_fds w' = open_fds w ∧ spawned w' = spawned w.
Proof.
  intros Hcmd Hin Hexec.
  unfold upload_from_stdin, bind, lift, log_info, Popen, raise, ret.
  rewrite Hcmd.
  destruct logger; rewrite ?read_stdin_set_log, Hin; cbn [outside set_log];
    rewrite Hexec; (eexists; split; [reflexivity|]); cbn; repeat split.
Qed.

(** [download_to_stdout] into an open file: the result follows the exit
    code and the child's output is written to the file behind the
    descriptor. *)
Lemma download_to_stdout_file_run self (remote_path : string) (fd : nat)
    (logger : bool) w cmd (path : string) (old out : bytes) (code : Z)
    (e : ext) :
  download_cmd self remote_path = Ok cmd →
  open_fds w !! fd = Some path →
  files w !! path = Some old →
  exec cmd (own_stdin w) (outside w) = Some (code, out, e) →
  ∃ w', download_to_stdout self remote_path (OutFile fd) logger w
        = (if truthy code
           then Raise (FilestreamException
                         ("Failed to download, return code: " +:+ pretty code))
           else Ok (), w') ∧
    files w' = <[path := old ++ out]> (files w) ∧
    open_fds w' = open_fds w ∧
    unreadable w' = unreadable w ∧ unwritable w' = unwritable w ∧
    own_stdin w' = own_stdin w ∧ own_stdout w' = own_stdout w ∧
    outside w' = e ∧
    spawned w' = spawned w ++ [{| args := cmd; input := own_stdin w;
                                  returncode := code |}].
Proof.
  intros Hcmd Hfd Hold Hexec.
  unfold download_to_stdout, bind, lift, log_info, Popen, raise, ret.
  rewrite Hcmd.
  destruct logger; cbn [read_stdin own_stdin outside set_log];
    rewrite Hexec; cbn [write_stdout open_fds files child_ran set_log];
    rewrite Hfd; cbn [mbind option_bind]; rewrite Hold; cbn [mbind option_bind];
    destruct (truthy code);
    (eexists; split; [reflexivity|]); cbn; repeat split.
Qed.

(** The result of [download_to_stdout] for any valid output stream. *)
Lemma download_to_stdout_result self (remote_path : string)
    (stdout : stdout_of) (logger : bool) w cmd (out : bytes) (code : Z)
    (e : ext) :
  download_cmd self remote_path = Ok cmd →
  is_Some (write_stdout stdout out w) →
  exec cmd (own_stdin w) (outside w) = Some (code, out, e) →
  (download_to_stdout self remote_path stdout logger w).1
    = if truthy code
      then Raise (FilestreamException
                    ("Failed to download, return code: " +:+ pretty code))
      else Ok ().
Proof.
  intros Hcmd Hout Hexec.
  unfold download_to_stdout, bind, lift, log_info, Popen, raise, ret.
  rewrite Hcmd.
  assert (Hframe : ∀ w1, files w1 = files w → open_fds w1 = open_fds w →
            is_Some (write_stdout stdout out w1)).
  { intros w1 Hf Hd. destruct stdout as [|fd|]; cbn in *; [eauto | | eauto].
    rewrite Hf, Hd. destruct Hout as [[b w2] Hw2].
    destruct (open_fds w !! fd) as [p|]; cbn in *; [|discriminate].
    destruct (files w !! p); cbn in *; [eauto | discriminate]. }
  destruct logger; cbn [read_stdin own_stdin outside set_log]; rewrite Hexec.
  - match goal with |- context [write_stdout stdout out ?w1] =>
      destruct (Hframe w1 eq_refl eq_refl) as [[b w2] ->] end.
    cbn. now destruct (truthy code).
  - match goal with |- context [write_stdout stdout out ?w1] =>
      destruct (Hframe w1 eq_refl eq_refl) as [[b w2] ->] end.
    cbn. now destruct (truthy code).
Qed.

(** Neither method opens or closes a descriptor of its own. *)
Lemma upload_from_stdin_fds self (remote_path : string) (stdin : stdin_of)
    (logger is_string_input : bool) (file_size : string) w :
  open_fds (upload_from_stdin self remote_path stdin logger is_string_input
              file_size w).2 = open_fds w.
Proof.
  unfold upload_from_stdin, bind, lift, log_info, Popen, raise, ret.
  destruct (upload_cmd _ _ _ _) as [cmd|err]; [|reflexivity].
  destruct logger;
    (destruct (read_stdin stdin _) as [data|]; [|reflexivity]);
    (destruct (exec cmd data _) as [[[code out] e]|]; [|reflexivity]);
    cbn; destruct (truthy code); reflexivity.
Qed.

(** [upload_from_file] on a file that opens, when the program starts. *)
Lemma upload_from_file_run self (remote local : string) (logger : bool) w
    cmd (content out : bytes) (code : Z) (e : ext) :
  files w !! local = Some content →
  local ∉ unreadable w →
  upload_cmd self remote false (pretty (length content)) = Ok cmd →
  exec cmd content (outside w) = Some (code, out, e) →
  ∃ w', upload_from_file self remote local logger w
        = (if truthy code
           then Raise (FilestreamException
                         ("Failed to upload, return code: " +:+ pretty code))
           else Ok (), w') ∧
    files w' = files w ∧ open_fds w' = open_fds w ∧
    unreadable w' = unreadable w ∧ unwritable w' = unwritable w ∧
    own_stdin w' = own_stdin w ∧ own_stdout w' = own_stdout w ++ out ∧
    outside w' = e ∧
    spawned w' = spawned w ++ [{| args := cmd; input := content;
                                  returncode := code |}].
Proof.
  intros Hfile Hread Hcmd Hexec.
  unfold upload_from_file, with_file, open_r, bind at 1, getsize.
  rewrite Hfile, decide_False by exact Hread.
  cbn [files set_open_fds]. rewrite Hfile.
  set (fd := fresh (dom (open_fds w))).
  set (w1 := set_open_fds (<[fd := local]> (open_fds w)) w).
  destruct (upload_from_stdin_run self remote (InFile fd) logger false
              (pretty (length content)) w1 cmd content out code e Hcmd)
    as (w2 & -> & Hf & Hd & Hur & Huw & Hi & Ho & Hr & Hs).
  { cbn. rewrite lookup_insert_eq. exact Hfile. }
  { exact Hexec. }
  eexists. split; [reflexivity|].
  cbn [close set_open_fds files open_fds unreadable unwritable own_stdin
       own_stdout outside spawned].
  rewrite Hd. cbn [w1 set_open_fds open_fds]. unfold fd.
  rewrite close_fresh. repeat split; assumption.
Qed.

(** [download_to_file] on a path that opens, when the program starts: the
    file holds what the child printed, and nothing else. *)
Lemma download_to_file_run self (remote local : string) (logger : bool) w
    cmd (out : bytes) (code : Z) (e : ext) :
  local ∉ unwritable w →
  download_cmd self remote = Ok cmd →
  exec cmd (own_stdin w) (outside w) = Some (code, out, e) →
  ∃ w', download_to_file self remote local logger w
        = (if truthy code
           then Raise (FilestreamException
                         ("Failed to download, return code: " +:+ pretty code))
           else Ok (), w') ∧
    files w' = <[local := out]> (files w) ∧ open_fds w' = open_fds w ∧
    outside w' = e ∧
    spawned w' = spawned w ++ [{| args := cmd; input := own_stdin w;
                                  returncode := code |}].
Proof.
  intros Hwrite Hcmd Hexec.
  unfold download_to_file, with_file, open_w.
  rewrite decide_False by exact Hwrite.
  set (fd := fresh (dom (open_fds w))).
  set (w1 := set_open_fds _ _).
  destruct (download_to_stdout_file_run self remote fd logger w1 cmd local []
              out code e Hcmd)
    as (w2 & -> & Hf & Hd & _ & _ & _ & _ & Hr & Hs).
  { cbn. apply lookup_insert_eq. }
  { cbn. apply lookup_insert_eq. }
  { exact Hexec. }
  eexists. split; [reflexivity|].
  cbn [close set_open_fds files open_fds outside spawned].
  rewrite Hf, Hd. cbn [w1 set_open_fds set_files open_fds files]. unfold fd.
  rewrite close_fresh, insert_insert_eq. repeat split; assumption.
Qed.

(** C2: when the child of [upload_from_stdin] or of [download_to_stdout]
    exits with 0 the method returns normally; when it exits with any other
    code the method raises [FilestreamException] with that code printed in
    its message.  Different codes give different messages, so the code can
    be read back and none is mapped onto another. *)
Theorem exit_code_contract self (remote_path : string) (stdin : stdin_of)
    (stdout : stdout_of) (logger is_string_input : bool) (file_size : string)
    w (up down : list string) (data out_u out_d : bytes) (code_u code_d : Z)
    (e_u e_d : ext) :
  upload_cmd self remote_path is_string_input file_size = Ok up →
  download_cmd self remote_path = Ok down →
  read_stdin stdin w = Some data →
  is_Some (write_stdout stdout out_d w) →
  exec up data (outside w) = Some (code_u, out_u, e_u) →
  exec down (own_stdin w) (outside w) = Some (code_d, out_d, e_d) →
  let uploaded :=
    (upload_from_stdin self remote_path stdin logger is_string_input
       file_size w).1 in
  let downloaded := (download_to_stdout self remote_path stdout logger w).1 in
  (code_u = 0 → uploaded = Ok ()) ∧
  (code_u ≠ 0 →
   uploaded = Raise (FilestreamException
                       ("Failed to upload, return code: " +:+ pretty code_u))) ∧
  (code_d = 0 → downloaded = Ok ()) ∧
  (code_d ≠ 0 →
   downloaded = Raise (FilestreamException
                         ("Failed to download, return code: "
                          +:+ pretty code_d))) ∧
  (∀ c c' : Z,
     "Failed to upload, return code: " +:+ pretty c
     = "Failed to upload, return code: " +:+ pretty c' → c = c') ∧
  (∀ c c' : Z,
     "Failed to download, return code: " +:+ pretty c
     = "Failed to download, return code: " +:+ pretty c' → c = c').
Proof.
  intros Hup Hdown Hin Hout Hexu Hexd uploaded downloaded.
  destruct (upload_from_stdin_run self remote_path stdin logger
              is_string_input file_size w up data out_u code_u e_u
              Hup Hin Hexu) as (wu & Hu & _).
  pose proof (download_to_stdout_result self remote_path stdout logger w down
                out_d code_d e_d Hdown Hout Hexd) as Hd.
  subst uploaded downloaded. rewrite Hu, Hd. cbn [fst]. unfold truthy.
  repeat split.
  - intros ->. reflexivity.
  - intros Hne. apply Z.eqb_neq in Hne. now rewrite Hne.
  - intros ->. reflexivity.
  - intros Hne. apply Z.eqb_neq in Hne. now rewrite Hne.
  - intros c c' Hmsg. cbn in Hmsg. simplify_eq. now apply (inj pretty).
  - intros c c' Hmsg. cbn in Hmsg. simplify_eq. now apply (inj pretty).
Qed.

(** C6: [upload_from_file] on a file that can be opened runs
    [upload_from_stdin] with the open file as standard input, with
    [is_string_input=False] and with the decimal string of the file's byte
    length as [file_size], and closes the descriptor afterwards; when the
    file is missing or unreadable, [OSError] comes out and nothing else
    happens; in every case the descriptor table is afterwards what it was
    before. *)
Theorem upload_from_file_delegates self (remote local : string)
    (logger : bool) w :
  (∀ content, files w !! local = Some content → local ∉ unreadable w →
     let fd := fresh (dom (open_fds w)) in
     let w1 := set_open_fds (<[fd := local]> (open_fds w)) w in
     let run := upload_from_stdin self remote (InFile fd) logger false
                  (pretty (length content)) w1 in
     read_stdin (InFile fd) w1 = Some content ∧
     upload_from_file self remote local logger w = (run.1, close fd run.2)) ∧
  (files w !! local = None ∨ local ∈ unreadable w →
     upload_from_file self remote local logger w = (Raise (OSError local), w)) ∧
  open_fds (upload_from_file self remote local logger w).2 = open_fds w.
Proof.
  split; [|split].
  - intros content Hfile Hread fd w1 run. split.
    + cbn. rewrite lookup_insert_eq. exact Hfile.
    + unfold upload_from_file, with_file, open_r, bind at 1, getsize.
      rewrite Hfile, decide_False by exact Hread.
      cbn [files set_open_fds]. rewrite Hfile.
      subst run w1 fd. now destruct (upload_from_stdin _ _ _ _ _ _ _).
  - intros Hbad. unfold upload_from_file, with_file, open_r.
    destruct (files w !! local) as [content|]; [|reflexivity].
    destruct Hbad as [Hbad|Hbad]; [discriminate|].
    now rewrite decide_True by exact Hbad.
  - unfold upload_from_file, with_file, open_r.
    destruct (files w !! local) as [content|] eqn:Hfile; [|reflexivity].
    destruct (decide (local ∈ unreadable w)); [reflexivity|].
    unfold bind at 1, getsize. cbn [files set_open_fds]. rewrite Hfile.
    match goal with |- context [upload_from_stdin ?a ?b ?c ?d ?f ?g ?h] =>
      pose proof (upload_from_stdin_fds a b c d f g h) as Hfds;
      destruct (upload_from_stdin a b c d f g h) as [r w2] end.
    cbn in Hfds |- *. rewrite Hfds. apply close_fresh.
Qed.

(** C7: [download_to_file] to a path that cannot be opened for writing
    raises [OSError] and leaves the world as it was: no child process has
    been started. *)
Theorem download_to_file_unwritable self (remote local : string)
    (logger : bool) w :
  local ∈ unwritable w →
  download_to_file self remote local logger w = (Raise (OSError local), w) ∧
  spawned (download_to_file self remote local logger w).2 = spawned w.
Proof.
  intros Hlocked.
  assert (download_to_file self remote local logger w
          = (Raise (OSError local), w)) as ->; [|now split].
  unfold download_to_file, with_file, open_w.
  now rewrite decide_True by exact Hlocked.
Qed.

(** C8 (as the code has it): [upload_from_string("remote/path.txt",
    "hello")] starts [echo hello] and then the upload child, whose standard
    input is exactly what [echo] printed, the bytes of [hello] and a
    newline; the upload command is the one built with
    [is_string_input=True] and no size hint, which carries the 102400
    buffer flag on OSS and on S3 and no buffer flag on SFTP. *)
Theorem upload_from_string_hello (context : Context) (b : BackupStorage)
    (sink : string) self (logger : bool) w (up : list string)
    (code_echo code : Z) (out : bytes) (e1 e2 : ext) :
  FileStreamClient__init__ context (PyEnum b) sink = Ok self →
  upload_cmd self "remote/path.txt" true "" = Ok up →
  exec ["echo"; "hello"] (own_stdin w) (outside w)
    = Some (code_echo, String.list_byte_of_string "hello" ++ [newline], e1) →
  exec up (String.list_byte_of_string "hello" ++ [newline]) e1
    = Some (code, out, e2) →
  ∃ w', upload_from_string self "remote/path.txt" "hello" logger w
        = (if truthy code
           then Raise (FilestreamException
                         ("Failed to upload, return code: " +:+ pretty code))
           else Ok (), w') ∧
    spawned w' = spawned w ++
      [ {| args := ["echo"; "hello"]; input := own_stdin w;
           returncode := code_echo |};
        {| args := up;
           input := String.list_byte_of_string "hello" ++ [newline];
           returncode := code |} ] ∧
    buffer_flags up =
      match b with
      | OSS => ["--meta.ossBufferSize=102400"]
      | SFTP => []
      | S3 => ["--meta.minioBufferSize=102400"]
      end.
Proof.
  intros Hinit Hup Hecho Hexec.
  unfold upload_from_string, bind at 1, Popen at 1.
  cbn [read_stdin]. rewrite Hecho. cbn [write_stdout].
  match goal with |- context [upload_from_stdin _ _ _ _ _ _ ?w1] =>
    destruct (upload_from_stdin_run self "remote/path.txt"
                (InPipe (String.list_byte_of_string "hello" ++ [newline]))
                logger true "" w1 up _ out code e2 Hup eq_refl Hexec)
      as (w2 & -> & _ & _ & _ & _ & _ & _ & _ & Hs) end.
  eexists. split; [reflexivity|]. split.
  - rewrite Hs. cbn [spawned child_ran]. now rewrite <- app_assoc.
  - destruct (upload_cmd_constructed _ _ _ _ "remote/path.txt" true ""
                Hinit) as (act & _ & Hcmd).
    rewrite Hup in Hcmd.
    match type of Hcmd with Ok _ = Ok ?built =>
      assert (up = built) as -> by congruence end.
    rewrite buffer_flags_app by discriminate.
    rewrite base_cmd_no_buffer_flag. now destruct b.
Qed.

(** C9 (as the code has it): against a binary that sends back on download
    what it took in on upload, [upload_from_file(remote, A)] followed by
    [download_to_file(remote, B)] both return normally and leave in [B]
    exactly the bytes of [A], with no descriptor left open. *)
Theorem upload_download_roundtrip (context : Context) (b : BackupStorage)
    (sink : string) self (remote A B : string) (logger : bool) w
    (content : bytes) :
  FileStreamClient__init__ context (PyEnum b) sink = Ok self →
  returns_what_was_uploaded self remote →
  files w !! A = Some content →
  A ∉ unreadable w →
  B ∉ unwritable w →
  ∃ w1 w2,
    upload_from_file self remote A logger w = (Ok (), w1) ∧
    download_to_file self remote B logger w1 = (Ok (), w2) ∧
    files w2 !! B = Some content ∧
    open_fds w2 = open_fds w.
Proof.
  intros Hinit Hstub Hfile Hread Hwrite.
  destruct (upload_cmd_constructed _ _ _ _ remote false
              (pretty (length content)) Hinit) as (act & _ & Hup).
  destruct (init_inv _ _ _ _ Hinit) as (b' & _ & _ & _ & _ & _ & Hact & _).
  assert (∃ down, download_cmd self remote = Ok down) as [down Hdown].
  { unfold download_cmd. rewrite Hact. eauto. }
  destruct (Hstub _ down _ content (outside w) Hup Hdown)
    as (out & e1 & Hexu & Hback).
  destruct (upload_from_file_run self remote A logger w _ content out 0 e1
              Hfile Hread Hup Hexu)
    as (w1 & Hrun1 & Hf1 & Hd1 & _ & Huw1 & Hi1 & _ & Hr1 & _).
  destruct (Hback (own_stdin w1)) as [e2 Hexd]. rewrite <- Hr1 in Hexd.
  destruct (download_to_file_run self remote B logger w1 down content 0 e2)
    as (w2 & Hrun2 & Hf2 & Hd2 & _); [now rewrite Huw1 | exact Hdown
                                       | exact Hexd |].
  exists w1, w2. repeat split.
  - exact Hrun1.
  - exact Hrun2.
  - rewrite Hf2. apply lookup_insert_eq.
  - now rewrite Hd2.
Qed.

End Transfers.

(** ** The properties on the stub systems *)

Lemma sample_client_constructed (b : BackupStorage) :
  FileStreamClient__init__ sample_context (PyEnum b) "backup"
    = Ok (sample_client b).
Proof. now destruct b. Qed.

(** The loop-back store does send back what it took in. *)
Lemma loopback_returns_what_was_uploaded (b : BackupStorage)
    (remote_path : string) :
  @returns_what_was_uploaded loopback_os (sample_client b) remote_path.
Proof.
  intros up down file_size data e Hup Hdown.
  destruct (upload_cmd_constructed _ _ _ _ remote_path false file_size
              (sample_client_constructed b)) as (act & Hact & Hcmd).
  rewrite Hup in Hcmd.
  match type of Hcmd with Ok _ = Ok ?built =>
    assert (up = built) as -> by congruence end.
  assert (down = base_cmd (sample_client b)
                   (value match b with OSS => DownloadOss | SFTP => DownloadSsh
                                 | S3 => DownloadMinio end) remote_path)
    as -> by (destruct b; vm_compute in Hdown; injection Hdown as <-;
              reflexivity).
  assert (act = match b with OSS => UploadOss | SFTP => UploadSsh
                        | S3 => UploadMinio end)
    as -> by (destruct b; vm_compute in Hact; congruence).
  exists [], (<["--meta.filename=" +:+ remote_path := data]> e).
  split; [now destruct b|].
  intros data'. exists (<["--meta.filename=" +:+ remote_path := data]> e).
  destruct b; cbn; now rewrite lookup_insert_eq.
Qed.

Lemma exit_code_contract_witness :
  (@upload_from_stdin loopback_os (sample_client OSS) "full/backup.xbstream"
     (InPipe abc) false false "3" (sample_world ∅)).1 = Ok () ∧
  (@download_to_stdout loopback_os (sample_client OSS) "full/backup.xbstream"
     OutPipe false (sample_world ∅)).1
    = Raise (FilestreamException "Failed to download, return code: 1").
Proof.
  destruct (@exit_code_contract loopback_os (sample_client OSS)
              "full/backup.xbstream" (InPipe abc) OutPipe false false "3"
              (sample_world ∅)
              [ "/tools/xstore/bin/filestream-client";
                "--meta.action=uploadOss"; "--meta.sink=backup";
                "--meta.filename=full/backup.xbstream";
                "--hostInfoFilePath=/tools/xstore/hostinfo";
                "--meta.ossBufferSize=3" ]
              [ "/tools/xstore/bin/filestream-client";
                "--meta.action=downloadOss"; "--meta.sink=backup";
                "--meta.filename=full/backup.xbstream";
                "--hostInfoFilePath=/tools/xstore/hostinfo" ]
              abc [] [] 0 1
              (<["--meta.filename=full/backup.xbstream" := abc]> ∅) ∅)
    as (Hzero & _ & _ & Hnonzero & _);
    [ reflexivity | reflexivity | reflexivity | eexists; reflexivity
    | vm_compute; reflexivity | vm_compute; reflexivity | ].
  split; [apply Hzero; reflexivity | apply Hnonzero; discriminate].
Defined.

Lemma upload_from_file_delegates_witness :
  @upload_from_file loopback_os (sample_client OSS) "full/a.txt" "a.txt"
     false (sample_world ∅)
  = ((@upload_from_stdin loopback_os (sample_client OSS) "full/a.txt"
        (InFile 0) false false "3"
        (set_open_fds {[ 0%nat := "a.txt" ]} (sample_world ∅))).1,
     close 0
       (@upload_from_stdin loopback_os (sample_client OSS) "full/a.txt"
          (InFile 0) false false "3"
          (set_open_fds {[ 0%nat := "a.txt" ]} (sample_world ∅))).2) ∧
  @upload_from_file loopback_os (sample_client OSS) "full/a.txt" "none.txt"
     false (sample_world ∅)
  = (Raise (OSError "none.txt"), sample_world ∅) ∧
  open_fds (@upload_from_file loopback_os (sample_client OSS) "full/a.txt"
              "a.txt" false (sample_world ∅)).2 = ∅.
Proof.
  destruct (@upload_from_file_delegates loopback_os (sample_client OSS)
              "full/a.txt" "a.txt" false (sample_world ∅))
    as (Hopen & _ & Hfds).
  destruct (@upload_from_file_delegates loopback_os (sample_client OSS)
              "full/a.txt" "none.txt" false (sample_world ∅))
    as (_ & Hmissing & _).
  split; [|split].
  - apply (Hopen abc); [reflexivity | apply not_elem_of_empty].
  - apply Hmissing. left. reflexivity.
  - exact Hfds.
Defined.

Lemma download_to_file_unwritable_witness :
  @download_to_file loopback_os (sample_client S3) "full/backup.xbstream"
     "/proc/ro.txt" false (sample_world ∅)
  = (Raise (OSError "/proc/ro.txt"), sample_world ∅) ∧
  spawned (@download_to_file loopback_os (sample_client S3)
             "full/backup.xbstream" "/proc/ro.txt" false (sample_world ∅)).2
  = [].
Proof.
  apply (@download_to_file_unwritable loopback_os (sample_client S3)
           "full/backup.xbstream" "/proc/ro.txt" false (sample_world ∅)).
  apply elem_of_singleton. reflexivity.
Defined.

Lemma upload_from_string_hello_witness :
  ∃ w', @upload_from_string loopback_os (sample_client OSS) "remote/path.txt"
          "hello" false (sample_world ∅) = (Ok (), w') ∧
    spawned w' =
      [ {| args := ["echo"; "hello"]; input := []; returncode := 0 |};
        {| args := [ "/tools/xstore/bin/filestream-client";
                     "--meta.action=uploadOss"; "--meta.sink=backup";
                     "--meta.filename=remote/path.txt";
                     "--hostInfoFilePath=/tools/xstore/hostinfo";
                     "--meta.ossBufferSize=102400" ];
           input := String.list_byte_of_string "hello" ++ [newline];
           returncode := 0 |} ] ∧
    buffer_flags [ "/tools/xstore/bin/filestream-client";
                   "--meta.action=uploadOss"; "--meta.sink=backup";
                   "--meta.filename=remote/path.txt";
                   "--hostInfoFilePath=/tools/xstore/hostinfo";
                   "--meta.ossBufferSize=102400" ]
    = ["--meta.ossBufferSize=102400"].
Proof.
  apply (@upload_from_string_hello loopback_os sample_context OSS "backup"
           (sample_client OSS) false (sample_world ∅)
           [ "/tools/xstore/bin/filestream-client";
             "--meta.action=uploadOss"; "--meta.sink=backup";
             "--meta.filename=remote/path.txt";
             "--hostInfoFilePath=/tools/xstore/hostinfo";
             "--meta.ossBufferSize=102400" ]
           0 0 [] ∅
           (<["--meta.filename=remote/path.txt" :=
                String.list_byte_of_string "hello" ++ [newline]]> ∅));
    reflexivity.
Defined.

(** C8 fails as stated on an SFTP client: the upload child does receive
    [hello] and a newline, but its command is the five fixed elements, with
    no buffer-size flag in it. *)
Lemma upload_from_string_hello_counterexample :
  FileStreamClient__init__ sample_context (PyEnum SFTP) "backup"
    = Ok (sample_client SFTP) ∧
  spawned (@upload_from_string loopback_os (sample_client SFTP)
             "remote/path.txt" "hello" false (sample_world ∅)).2 =
    [ {| args := ["echo"; "hello"]; input := []; returncode := 0 |};
      {| args := [ "/tools/xstore/bin/filestream-client";
                   "--meta.action=uploadSsh"; "--meta.sink=backup";
                   "--meta.filename=remote/path.txt";
                   "--hostInfoFilePath=/tools/xstore/hostinfo" ];
         input := String.list_byte_of_string "hello" ++ [newline];
         returncode := 0 |} ] ∧
  buffer_flags [ "/tools/xstore/bin/filestream-client";
                 "--meta.action=uploadSsh"; "--meta.sink=backup";
                 "--meta.filename=remote/path.txt";
                 "--hostInfoFilePath=/tools/xstore/hostinfo" ] = [].
Proof. repeat split; vm_compute; reflexivity. Qed.

Lemma upload_download_roundtrip_witness :
  ∃ w1 w2,
    @upload_from_file loopback_os (sample_client S3) "full/a.txt" "a.txt"
      false (sample_world ∅) = (Ok (), w1) ∧
    @download_to_file loopback_os (sample_client S3) "full/a.txt" "b.txt"
      false w1 = (Ok (), w2) ∧
    files w2 !! "b.txt" = Some abc ∧
    open_fds w2 = ∅.
Proof.
  apply (@upload_download_roundtrip loopback_os sample_context S3 "backup"
           (sample_client S3) "full/a.txt" "a.txt" "b.txt" false
           (sample_world ∅) abc).
  - reflexivity.
  - apply loopback_returns_what_was_uploaded.
  - reflexivity.
  - apply not_elem_of_empty.
  - cbn [unwritable sample_world]. intros Hin.
    apply elem_of_singleton in Hin. discriminate Hin.
Defined.

(** C9 fails as stated against a binary that copies its own input to its
    own output.  The upload child is given [a.txt] as input and copies it
    to the standard output it inherits; the download child is given
    [b.txt] as output and copies the standard input it inherits, here
    empty.  Both exit with 0, and [b.txt] ends up empty while [a.txt] holds
    [abc]. *)
Lemma upload_download_roundtrip_counterexample :
  cat_uploaded.1 = Ok () ∧
  cat_downloaded.1 = Ok () ∧
  files cat_downloaded.2 !! "a.txt" = Some abc ∧
  files cat_downloaded.2 !! "b.txt" = Some [] ∧
  own_stdout cat_downloaded.2 = abc ∧
  files cat_downloaded.2 !! "b.txt" ≠ files cat_downloaded.2 !! "a.txt".
Proof.
  repeat split; try (vm_compute; reflexivity). vm_compute. discriminate.
Qed.

(** * Further properties of the methods *)

(** ** Decimal strings *)

Lemma pretty_N_go_nonempty (x : N) (s : string) :
  s ≠ "" → pretty_N_go x s ≠ "".
Proof.
  revert s. induction (N.lt_wf_0 x) as [x _ IH]. intros s Hs.
  destruct (decide (x = 0)%N) as [->|Hpos].
  - now rewrite pretty_N_go_0.
  - rewrite pretty_N_go_step by lia.
    apply IH; [apply N.div_lt; lia | discriminate].
Qed.

(** [str(n)] of a size is never the empty string. *)
Lemma pretty_nat_nonempty (n : nat) : pretty n ≠ "".
Proof.
  unfold pretty, pretty_nat, pretty, pretty_N.
  destruct (decide (N.of_nat n = 0)%N) as [_|Hpos]; [discriminate|].
  rewrite pretty_N_go_step by lia.
  apply pretty_N_go_nonempty. discriminate.
Qed.

(** ** What the methods leave alone *)

Section Frames.
Context `{OS}.

Implicit Types (w : world) (self : FileStreamClient) (cmd : list string).

(** One [Popen]: it keeps the descriptor table, the permissions, the
    interpreter's standard input and the log, records at most one child, and
    writes to no file but the one behind its output descriptor. *)
Lemma Popen_frame cmd (sin : stdin_of) (sout : stdout_of) w :
  open_fds (Popen cmd sin sout w).2 = open_fds w ∧
  unreadable (Popen cmd sin sout w).2 = unreadable w ∧
  unwritable (Popen cmd sin sout w).2 = unwritable w ∧
  own_stdin (Popen cmd sin sout w).2 = own_stdin w ∧
  log (Popen cmd sin sout w).2 = log w ∧
  (∃ new, spawned (Popen cmd sin sout w).2 = spawned w ++ new ∧
          (length new ≤ 1)%nat) ∧
  ((∀ fd, sout ≠ OutFile fd) → files (Popen cmd sin sout w).2 = files w) ∧
  (∀ fd path p, sout = OutFile fd → open_fds w !! fd = Some path → p ≠ path →
     files (Popen cmd sin sout w).2 !! p = files w !! p).
Proof.
  assert (Hnone : ∃ new, spawned w = spawned w ++ new ∧ (length new ≤ 1)%nat).
  { exists []. split; [now rewrite app_nil_r | cbn; lia]. }
  assert (Hone : ∀ p, ∃ new, spawned w ++ [p] = spawned w ++ new
                            ∧ (length new ≤ 1)%nat).
  { intros p. exists [p]. split; [reflexivity | cbn; lia]. }
  unfold Popen.
  destruct (read_stdin sin w) as [data|]; [|cbn; repeat split; auto].
  destruct (exec cmd data (outside w)) as [[[code out] e]|];
    [|cbn; repeat split; auto].
  destruct sout as [|fd|]; cbn.
  - repeat split; auto; intros fd path p [=].
  - destruct (open_fds w !! fd) as [path|] eqn:Hfd; cbn;
      [destruct (files w !! path) as [old|] eqn:Hold; cbn|].
    + repeat split; auto.
      * intros Hno. now destruct (Hno fd).
      * intros fd' path' p [= <-] Hfd' Hne.
        rewrite Hfd in Hfd'. injection Hfd' as <-.
        now apply lookup_insert_ne.
    + repeat split; auto.
    + repeat split; auto.
  - repeat split; auto; intros fd path p [=].
Qed.

Lemma upload_from_stdin_frame self (remote_path : string) (stdin : stdin_of)
    (logger is_string_input : bool) (file_size : string) w :
  files (upload_from_stdin self remote_path stdin logger is_string_input
           file_size w).2 = files w ∧
  open_fds (upload_from_stdin self remote_path stdin logger is_string_input
              file_size w).2 = open_fds w ∧
  unreadable (upload_from_stdin self remote_path stdin logger is_string_input
                file_size w).2 = unreadable w ∧
  unwritable (upload_from_stdin self remote_path stdin logger is_string_input
                file_size w).2 = unwritable w ∧
  own_stdin (upload_from_stdin self remote_path stdin logger is_string_input
               file_size w).2 = own_stdin w ∧
  (∃ new, spawned (upload_from_stdin self remote_path stdin logger
                     is_string_input file_size w).2 = spawned w ++ new ∧
          (length new ≤ 1)%nat).
Proof.
  unfold upload_from_stdin, bind, lift, log_info, raise, ret.
  destruct (upload_cmd _ _ _ _) as [cmd|err].
  2:{ cbn. repeat split. exists []. split; [now rewrite app_nil_r | cbn; lia]. }
  destruct logger.
  - pose proof (Popen_frame cmd stdin OutInherited
                  (set_log (log w ++ [("Upload command: ", cmd)]) w))
      as (Hd & Hur & Huw & Hi & _ & Hs & Hf & _).
    specialize (Hf ltac:(discriminate)).
    destruct (Popen _ _ _ _) as [[[code piped]|err] w2]; cbn in *;
      [destruct (truthy code); cbn|]; repeat split; assumption.
  - pose proof (Popen_frame cmd stdin OutInherited w)
      as (Hd & Hur & Huw & Hi & _ & Hs & Hf & _).
    specialize (Hf ltac:(discriminate)).
    destruct (Popen _ _ _ _) as [[[code piped]|err] w2]; cbn in *;
      [destruct (truthy code); cbn|]; repeat split; assumption.
Qed.

Lemma download_to_stdout_frame self (remote_path : string)
    (stdout : stdout_of) (logger : bool) w :
  open_fds (download_to_stdout self remote_path stdout logger w).2
    = open_fds w ∧
  unreadable (download_to_stdout self remote_path stdout logger w).2
    = unreadable w ∧
  unwritable (download_to_stdout self remote_path stdout logger w).2
    = unwritable w ∧
  own_stdin (download_to_stdout self remote_path stdout logger w).2
    = own_stdin w ∧
  (∃ new, spawned (download_to_stdout self remote_path stdout logger w).2
          = spawned w ++ new ∧ (length new ≤ 1)%nat) ∧
  ((∀ fd, stdout ≠ OutFile fd) →
     files (download_to_stdout self remote_path stdout logger w).2 = files w) ∧
  (∀ fd path p, stdout = OutFile fd → open_fds w !! fd = Some path →
     p ≠ path →
     files (download_to_stdout self remote_path stdout logger w).2 !! p
     = files w !! p).
Proof.
  unfold download_to_stdout, bind, lift, log_info, raise, ret.
  destruct (download_cmd _ _) as [cmd|err].
  2:{ cbn. repeat split. exists []. split; [now rewrite app_nil_r | cbn; lia]. }
  destruct logger.
  - pose proof (Popen_frame cmd InInherited stdout
                  (set_log (log w ++ [("Download command: ", cmd)]) w))
      as (Hd & Hur & Huw & Hi & _ & Hs & Hf & Hp).
    destruct (Popen _ _ _ _) as [[[code piped]|err] w2]; cbn in *;
      [destruct (truthy code); cbn|]; repeat split; assumption.
  - pose proof (Popen_frame cmd InInherited stdout w)
      as (Hd & Hur & Huw & Hi & _ & Hs & Hf & Hp).
    destruct (Popen _ _ _ _) as [[[code piped]|err] w2]; cbn in *;
      [destruct (truthy code); cbn|]; repeat split; assumption.
Qed.

Lemma upload_from_file_frame self (remote local : string) (logger : bool) w :
  files (upload_from_file self remote local logger w).2 = files w ∧
  (∃ new, spawned (upload_from_file self remote local logger w).2
          = spawned w ++ new ∧ (length new ≤ 1)%nat).
Proof.
  assert (Hnone : ∃ new, spawned w = spawned w ++ new ∧ (length new ≤ 1)%nat).
  { exists []. split; [now rewrite app_nil_r | cbn; lia]. }
  unfold upload_from_file, with_file, open_r.
  destruct (files w !! local) as [content|] eqn:Hfile; [|now split].
  destruct (decide (local ∈ unreadable w)); [now split|].
  unfold bind, getsize. cbn [files set_open_fds]. rewrite Hfile.
  match goal with |- context [upload_from_stdin ?a ?b ?c ?d ?f ?g ?h] =>
    pose proof (upload_from_stdin_frame a b c d f g h)
      as (Hf & _ & _ & _ & _ & Hs);
    destruct (upload_from_stdin a b c d f g h) as [r w2] end.
  cbn in *. now split.
Qed.

Lemma download_to_file_frame self (remote local : string) (logger : bool) w :
  open_fds (download_to_file self remote local logger w).2 = open_fds w ∧
  (∀ p, p ≠ local →
     files (download_to_file self remote local logger w).2 !! p
     = files w !! p) ∧
  (∃ new, spawned (download_to_file self remote local logger w).2
          = spawned w ++ new ∧ (length new ≤ 1)%nat).
Proof.
  unfold download_to_file, with_file, open_w.
  destruct (decide (local ∈ unwritable w)).
  { cbn. repeat split. exists []. split; [now rewrite app_nil_r | cbn; lia]. }
  set (fd := fresh (dom (open_fds w))).
  match goal with |- context [download_to_stdout ?a ?b ?c ?d ?f] =>
    pose proof (download_to_stdout_frame a b c d f)
      as (Hd & _ & _ & _ & Hs & _ & Hp);
    destruct (download_to_stdout a b c d f) as [r w2] end.
  cbn in *. repeat split.
  - rewrite Hd. apply close_fresh.
  - intros p Hne.
    rewrite (Hp fd local p eq_refl) by (apply lookup_insert_eq || exact Hne).
    now apply lookup_insert_ne.
  - exact Hs.
Qed.

Lemma upload_from_string_frame self (remote content : string)
    (logger : bool) w :
  files (upload_from_string self remote content logger w).2 = files w ∧
  open_fds (upload_from_string self remote content logger w).2 = open_fds w ∧
  (∃ new, spawned (upload_from_string self remote content logger w).2
          = spawned w ++ new ∧ (length new ≤ 2)%nat).
Proof.
  unfold upload_from_string, bind.
  pose proof (Popen_frame ["echo"; content] InInherited OutPipe w)
    as (Hd & _ & _ & _ & _ & (new1 & Hs1 & Hn1) & Hf & _).
  specialize (Hf ltac:(discriminate)).
  destruct (Popen _ _ _ _) as [[[code piped]|err] w1];
    cbn -[upload_from_stdin] in *.
  - match goal with |- context [upload_from_stdin ?a ?b ?c ?d ?f ?g ?h] =>
      pose proof (upload_from_stdin_frame a b c d f g h)
        as (Hf2 & Hd2 & _ & _ & _ & (new2 & Hs2 & Hn2));
      destruct (upload_from_stdin a b c d f g h) as [r w2] end.
    cbn in *. repeat split; [congruence | congruence |].
    exists (new1 ++ new2). rewrite Hs2, Hs1, <- app_assoc, length_app.
    split; [reflexivity | lia].
  - repeat split; [assumption | assumption |].
    exists new1. split; [assumption | lia].
Qed.

End Frames.

(** ** Effects of the five methods *)

Section Effects.
Context `{OS}.

Implicit Types (w : world) (self : FileStreamClient) (cmd : list string).

(** No upload method writes, creates or removes a local file, whatever the
    client, the arguments and the outcome. *)
Theorem uploads_keep_local_files self (remote local content : string)
    (stdin : stdin_of) (logger is_string_input : bool) (file_size : string) w :
  files (upload_from_stdin self remote stdin logger is_string_input
           file_size w).2 = files w ∧
  files (upload_from_file self remote local logger w).2 = files w ∧
  files (upload_from_string self remote content logger w).2 = files w.
Proof.
  split; [apply upload_from_stdin_frame|].
  split; [apply upload_from_file_frame | apply upload_from_string_frame].
Qed.

(** [download_to_file] changes no local file other than [local], and leaves
    the descriptor table as it found it, whether it returns or raises. *)
Theorem download_to_file_touches_only_local self (remote local : string)
    (logger : bool) w :
  open_fds (download_to_file self remote local logger w).2 = open_fds w ∧
  ∀ p, p ≠ local →
    files (download_to_file self remote local logger w).2 !! p = files w !! p.
Proof.
  split; apply download_to_file_frame.
Qed.

(** A call never drops a child from the record and starts at most one
    child, [upload_from_string] at most two. *)
Theorem methods_spawn_bounded self (remote local content : string)
    (stdin : stdin_of) (stdout : stdout_of) (logger is_string_input : bool)
    (file_size : string) w :
  (∃ new, spawned (upload_from_stdin self remote stdin logger is_string_input
                     file_size w).2 = spawned w ++ new ∧
          (length new ≤ 1)%nat) ∧
  (∃ new, spawned (download_to_stdout self remote stdout logger w).2
          = spawned w ++ new ∧ (length new ≤ 1)%nat) ∧
  (∃ new, spawned (upload_from_file self remote local logger w).2
          = spawned w ++ new ∧ (length new ≤ 1)%nat) ∧
  (∃ new, spawned (download_to_file self remote local logger w).2
          = spawned w ++ new ∧ (length new ≤ 1)%nat) ∧
  (∃ new, spawned (upload_from_string self remote content logger w).2
          = spawned w ++ new ∧ (length new ≤ 2)%nat).
Proof.
  split; [apply upload_from_stdin_frame|].
  split; [apply download_to_stdout_frame|].
  split; [apply upload_from_file_frame|].
  split; [apply download_to_file_frame | apply upload_from_string_frame].
Qed.

(** [download_to_file] truncates before it transfers.  Once [local] has
    been opened, what it held before is gone: after a child that ran,
    [local] holds exactly what the child printed, also when the child
    failed and the call raises; after a child that could not be started,
    [local] is empty and the call raises [OSError]. *)
Theorem download_to_file_overwrites self (remote local : string)
    (logger : bool) w cmd :
  local ∉ unwritable w →
  download_cmd self remote = Ok cmd →
  match exec cmd (own_stdin w) (outside w) with
  | Some (code, out, _) =>
    (download_to_file self remote local logger w).1
      = (if truthy code
         then Raise (FilestreamException
                       ("Failed to download, return code: " +:+ pretty code))
         else Ok ()) ∧
    files (download_to_file self remote local logger w).2 !! local = Some out
  | None =>
    (download_to_file self remote local logger w).1
      = Raise (OSError (default "" (head cmd))) ∧
    files (download_to_file self remote local logger w).2 !! local = Some []
  end.
Proof.
  intros Hwrite Hcmd.
  destruct (exec cmd (own_stdin w) (outside w)) as [[[code out] e]|] eqn:Hexec.
  - destruct (download_to_file_run self remote local logger w cmd out code e
                Hwrite Hcmd Hexec) as (w' & -> & Hf & _).
    split; [reflexivity|]. cbn [snd]. rewrite Hf. apply lookup_insert_eq.
  - unfold download_to_file, with_file, open_w.
    rewrite decide_False by exact Hwrite.
    unfold download_to_stdout, bind, lift, log_info, Popen.
    rewrite Hcmd.
    destruct logger; cbn [read_stdin own_stdin outside set_log set_open_fds
                          set_files]; rewrite Hexec; cbn;
      (split; [reflexivity | apply lookup_insert_eq]).
Qed.

(** When [echo] cannot be started, [upload_from_string] raises [OSError]
    for it and does nothing else: the transfer binary is not run. *)
Theorem upload_from_string_echo_missing self (remote content : string)
    (logger : bool) w :
  exec ["echo"; content] (own_stdin w) (outside w) = None →
  upload_from_string self remote content logger w = (Raise (OSError "echo"), w).
Proof.
  intros Hexec. unfold upload_from_string, bind, Popen.
  cbn [read_stdin]. now rewrite Hexec.
Qed.

(** [upload_from_string] when both programs start. *)
Lemma upload_from_string_run self (remote content : string) (logger : bool)
    w (up : list string) (produced out : bytes) (code_echo code : Z)
    (e1 e2 : ext) :
  upload_cmd self remote true "" = Ok up →
  exec ["echo"; content] (own_stdin w) (outside w)
    = Some (code_echo, produced, e1) →
  exec up produced e1 = Some (code, out, e2) →
  ∃ w', upload_from_string self remote content logger w
        = (if truthy code
           then Raise (FilestreamException
                         ("Failed to upload, return code: " +:+ pretty code))
           else Ok (), w') ∧
    files w' = files w ∧ open_fds w' = open_fds w ∧
    unwritable w' = unwritable w ∧ own_stdin w' = own_stdin w ∧
    outside w' = e2 ∧
    spawned w' = spawned w ++
      [ {| args := ["echo"; content]; input := own_stdin w;
           returncode := code_echo |};
        {| args := up; input := produced; returncode := code |} ].
Proof.
  intros Hup Hecho Hexec.
  unfold upload_from_string, bind at 1, Popen at 1.
  cbn [read_stdin]. rewrite Hecho. cbn [write_stdout].
  match goal with |- context [upload_from_stdin _ _ _ _ _ _ ?w1] =>
    destruct (upload_from_stdin_run self remote (InPipe produced) logger true
                "" w1 up _ out code e2 Hup eq_refl Hexec)
      as (w2 & -> & Hf & Hd & _ & Huw & Hi & _ & Hr & Hs) end.
  eexists. split; [reflexivity|].
  rewrite Hs. cbn [spawned child_ran]. rewrite <- app_assoc.
  repeat split; assumption.
Qed.

(** The exit status of [echo] is never looked at.  Whatever [echo] printed,
    even nothing, is what the upload child reads, and the call returns or
    raises by the upload child's exit code alone. *)
Theorem upload_from_string_ignores_echo_status self (remote content : string)
    (logger : bool) w (up : list string) (produced out : bytes)
    (code_echo code : Z) (e1 e2 : ext) :
  upload_cmd self remote true "" = Ok up →
  exec ["echo"; content] (own_stdin w) (outside w)
    = Some (code_echo, produced, e1) →
  exec up produced e1 = Some (code, out, e2) →
  (upload_from_string self remote content logger w).1
    = (if truthy code
       then Raise (FilestreamException
                     ("Failed to upload, return code: " +:+ pretty code))
       else Ok ()) ∧
  spawned (upload_from_string self remote content logger w).2
    = spawned w ++
      [ {| args := ["echo"; content]; input := own_stdin w;
           returncode := code_echo |};
        {| args := up; input := produced; returncode := code |} ].
Proof.
  intros Hup Hecho Hexec.
  destruct (upload_from_string_run self remote content logger w up produced
              out code_echo code e1 e2 Hup Hecho Hexec)
    as (w' & -> & _ & _ & _ & _ & _ & Hs).
  now split.
Qed.

(** [upload_from_file] by a constructed client starts one child whose
    standard input is the file's content and whose command is the five
    fixed elements followed, on OSS and on S3, by the buffer-size flag with
    the decimal byte length of the file, and by nothing on SFTP.  The flag
    is there for an empty file too, with the value 0. *)
Theorem upload_from_file_command (context : Context) (b : BackupStorage)
    (sink : string) self (remote local : string) (logger : bool) w cmd
    (content out : bytes) (code : Z) (e : ext) :
  FileStreamClient__init__ context (PyEnum b) sink = Ok self →
  files w !! local = Some content →
  local ∉ unreadable w →
  upload_cmd self remote false (pretty (length content)) = Ok cmd →
  exec cmd content (outside w) = Some (code, out, e) →
  spawned (upload_from_file self remote local logger w).2
    = spawned w ++ [{| args := cmd; input := content; returncode := code |}] ∧
  (upload_from_file self remote local logger w).1
    = (if truthy code
       then Raise (FilestreamException
                     ("Failed to upload, return code: " +:+ pretty code))
       else Ok ()) ∧
  length cmd = (5 + length (buffer_flags cmd))%nat ∧
  buffer_flags cmd =
    match b with
    | OSS => ["--meta.ossBufferSize=" +:+ pretty (length content)]
    | SFTP => []
    | S3 => ["--meta.minioBufferSize=" +:+ pretty (length content)]
    end.
Proof.
  intros Hinit Hfile Hread Hcmd Hexec.
  destruct (upload_from_file_run self remote local logger w cmd content out
              code e Hfile Hread Hcmd Hexec)
    as (w' & -> & _ & _ & _ & _ & _ & _ & _ & Hs).
  split; [exact Hs|]. split; [reflexivity|].
  destruct (upload_cmd_constructed _ _ _ _ remote false
              (pretty (length content)) Hinit) as (act & _ & Hbuilt).
  rewrite Hcmd in Hbuilt.
  rewrite bool_decide_eq_false_2 in Hbuilt by apply pretty_nat_nonempty.
  match type of Hbuilt with Ok _ = Ok ?built =>
    assert (cmd = built) as -> by congruence end.
  rewrite buffer_flags_app by discriminate.
  rewrite base_cmd_no_buffer_flag, length_app.
  destruct b; cbn [app List.filter length base_cmd];
    rewrite ?is_buffer_flag_oss, ?is_buffer_flag_minio; now split.
Qed.

(** The [--meta.action=] argument tells direction and backend apart: an
    upload command never carries the action argument of a download command,
    and two upload commands, or two download commands, with the same action
    argument come from clients of the same backend. *)
Theorem action_argument_identifies (context1 context2 : Context)
    (b1 b2 : BackupStorage) (sink1 sink2 : string) (self1 self2 : FileStreamClient)
    (remote1 remote2 : string) (is_string_input1 is_string_input2 : bool)
    (file_size1 file_size2 : string) (up1 up2 down1 down2 : list string) :
  FileStreamClient__init__ context1 (PyEnum b1) sink1 = Ok self1 →
  FileStreamClient__init__ context2 (PyEnum b2) sink2 = Ok self2 →
  upload_cmd self1 remote1 is_string_input1 file_size1 = Ok up1 →
  upload_cmd self2 remote2 is_string_input2 file_size2 = Ok up2 →
  download_cmd self1 remote1 = Ok down1 →
  download_cmd self2 remote2 = Ok down2 →
  up1 !! 1%nat ≠ down2 !! 1%nat ∧
  (up1 !! 1%nat = up2 !! 1%nat → b1 = b2) ∧
  (down1 !! 1%nat = down2 !! 1%nat → b1 = b2).
Proof.
  intros Hinit1 Hinit2 Hup1 Hup2 Hdown1 Hdown2.
  destruct (init_inv _ _ _ _ Hinit1)
    as (c1 & [= <-] & _ & _ & Hst1 & _ & Hd1 & Hu1).
  destruct (init_inv _ _ _ _ Hinit2)
    as (c2 & [= <-] & _ & _ & Hst2 & _ & Hd2 & Hu2).
  unfold upload_cmd in Hup1, Hup2. unfold download_cmd in Hdown1, Hdown2.
  rewrite Hu1 in Hup1. rewrite Hu2 in Hup2.
  rewrite Hd1 in Hdown1. rewrite Hd2 in Hdown2.
  cbn [action_value] in *.
  injection Hdown1 as <-. injection Hdown2 as <-.
  assert (Hup : ∀ self act r c1 x1 c2 x2 c3 x3 c4 x4,
            append_if c4 x4 (append_if c3 x3 (append_if c2 x2
              (append_if c1 x1 (base_cmd self act r)))) !! 1%nat
            = Some ("--meta.action=" +:+ act)).
  { intros ? ? ? [] ? [] ? [] ? [] ?; reflexivity. }
  injection Hup1 as <-. injection Hup2 as <-.
  rewrite !Hup. cbn [base_cmd lookup list_lookup].
  destruct b1, b2; cbn; repeat split; intros Heq;
    first [reflexivity | discriminate Heq].
Qed.

(** A [Popen] does the same in a world that differs only in its log. *)
Lemma Popen_set_log cmd (sin : stdin_of) (sout : stdout_of) l w :
  Popen cmd sin sout (set_log l w)
  = ((Popen cmd sin sout w).1, set_log l (Popen cmd sin sout w).2).
Proof.
  unfold Popen. rewrite read_stdin_set_log.
  destruct (read_stdin sin w) as [data|]; [|reflexivity].
  cbn [outside set_log].
  destruct (exec cmd data (outside w)) as [[[code out] e]|]; [|reflexivity].
  destruct sout as [|fd|]; cbn; try reflexivity.
  destruct (open_fds w !! fd) as [path|]; cbn; [|reflexivity].
  now destruct (files w !! path).
Qed.

(** Passing a logger changes nothing but the log: the result is the same
    and so is the rest of the world.  With a logger, one record holding
    the command is added, before the child is started and also when it
    cannot be; without one, the log is untouched. *)
Theorem logger_only_logs self (remote_path : string) (stdin : stdin_of)
    (stdout : stdout_of) (is_string_input : bool) (file_size : string) w :
  ((upload_from_stdin self remote_path stdin true is_string_input
      file_size w).1
   = (upload_from_stdin self remote_path stdin false is_string_input
        file_size w).1 ∧
   set_log (log w) (upload_from_stdin self remote_path stdin true
                      is_string_input file_size w).2
   = set_log (log w) (upload_from_stdin self remote_path stdin false
                        is_string_input file_size w).2 ∧
   log (upload_from_stdin self remote_path stdin false is_string_input
          file_size w).2 = log w ∧
   ∀ cmd, upload_cmd self remote_path is_string_input file_size = Ok cmd →
     log (upload_from_stdin self remote_path stdin true is_string_input
            file_size w).2 = log w ++ [("Upload command: ", cmd)]) ∧
  ((download_to_stdout self remote_path stdout true w).1
   = (download_to_stdout self remote_path stdout false w).1 ∧
   set_log (log w) (download_to_stdout self remote_path stdout true w).2
   = set_log (log w) (download_to_stdout self remote_path stdout false w).2 ∧
   log (download_to_stdout self remote_path stdout false w).2 = log w ∧
   ∀ cmd, download_cmd self remote_path = Ok cmd →
     log (download_to_stdout self remote_path stdout true w).2
     = log w ++ [("Download command: ", cmd)]).
Proof.
  split.
  - unfold upload_from_stdin, bind, lift, log_info, raise, ret.
    destruct (upload_cmd _ _ _ _) as [built|err];
      [|repeat split; intros cmd [=]].
    rewrite Popen_set_log.
    pose proof (Popen_frame built stdin OutInherited w)
      as (_ & _ & _ & _ & Hlog & _).
    destruct (Popen built stdin OutInherited w) as [[[code piped]|err] w2];
      cbn in *; [destruct (truthy code); cbn|];
      (repeat split; [exact Hlog | now intros cmd [= <-]]).
  - unfold download_to_stdout, bind, lift, log_info, raise, ret.
    destruct (download_cmd _ _) as [built|err];
      [|repeat split; intros cmd [=]].
    rewrite Popen_set_log.
    pose proof (Popen_frame built InInherited stdout w)
      as (_ & _ & _ & _ & Hlog & _).
    destruct (Popen built InInherited stdout w) as [[[code piped]|err] w2];
      cbn in *; [destruct (truthy code); cbn|];
      (repeat split; [exact Hlog | now intros cmd [= <-]]).
Qed.

(** An inline string comes back with a newline added.  Against a binary
    that sends back on download what it took in on upload, and with an
    [echo] that prints its argument and a newline,
    [upload_from_string(remote, content)] followed by
    [download_to_file(remote, B)] leaves in [B] the bytes of [content]
    followed by one newline. *)
Theorem string_upload_download_roundtrip (context : Context)
    (b : BackupStorage) (sink : string) self (remote content B : string)
    (logger : bool) w (code_echo : Z) (e0 : ext) :
  FileStreamClient__init__ context (PyEnum b) sink = Ok self →
  exec ["echo"; content] (own_stdin w) (outside w)
    = Some (code_echo, String.list_byte_of_string content ++ [newline], e0) →
  (∀ up down data e,
     upload_cmd self remote true "" = Ok up →
     download_cmd self remote = Ok down →
     ∃ out e1, exec up data e = Some (0, out, e1) ∧
       ∀ data', ∃ e2, exec down data' e1 = Some (0, data, e2)) →
  B ∉ unwritable w →
  ∃ w1 w2,
    upload_from_string self remote content logger w = (Ok (), w1) ∧
    download_to_file self remote B logger w1 = (Ok (), w2) ∧
    files w2 !! B = Some (String.list_byte_of_string content ++ [newline]) ∧
    ∀ p, p ≠ B → files w2 !! p = files w !! p.
Proof.
  intros Hinit Hecho Hstub Hwrite.
  destruct (upload_cmd_constructed _ _ _ _ remote true "" Hinit)
    as (act & _ & Hup).
  destruct (init_inv _ _ _ _ Hinit) as (b' & _ & _ & _ & _ & _ & Hact & _).
  assert (∃ down, download_cmd self remote = Ok down) as [down Hdown].
  { unfold download_cmd. rewrite Hact. eauto. }
  destruct (Hstub _ down (String.list_byte_of_string content ++ [newline]) e0
              Hup Hdown) as (out & e1 & Hexu & Hback).
  destruct (upload_from_string_run self remote content logger w _ _ out
              code_echo 0 e0 e1 Hup Hecho Hexu)
    as (w1 & Hrun1 & Hf1 & _ & Huw1 & Hi1 & Hr1 & _).
  destruct (Hback (own_stdin w1)) as [e2 Hexd]. rewrite <- Hr1 in Hexd.
  destruct (download_to_file_run self remote B logger w1 down
              (String.list_byte_of_string content ++ [newline]) 0 e2)
    as (w2 & Hrun2 & Hf2 & _); [now rewrite Huw1 | exact Hdown | exact Hexd |].
  exists w1, w2. repeat split.
  - exact Hrun1.
  - exact Hrun2.
  - rewrite Hf2. apply lookup_insert_eq.
  - intros p Hne. rewrite Hf2, Hf1. now apply lookup_insert_ne.
Qed.

End Effects.

(** ** The further properties on the stub systems *)

(** The loop-back store sends back what it took in, whatever the optional
    arguments of the upload were. *)
Lemma loopback_sends_back (b : BackupStorage) (remote_path : string)
    (is_string_input : bool) (file_size : string)
    (up down : list string) (data : bytes) (e : gmap string bytes) :
  upload_cmd (sample_client b) remote_path is_string_input file_size = Ok up →
  download_cmd (sample_client b) remote_path = Ok down →
  ∃ out e1, loopback_exec up data e = Some (0, out, e1) ∧
    ∀ data', ∃ e2, loopback_exec down data' e1 = Some (0, data, e2).
Proof.
  intros Hup Hdown.
  exists [], (<["--meta.filename=" +:+ remote_path := data]> e).
  destruct b, is_string_input; vm_compute in Hdown; injection Hdown as <-;
    unfold upload_cmd in Hup; cbn in Hup;
    destruct (bool_decide (file_size = "")); cbn in Hup;
    injection Hup as <-;
    (split; [reflexivity|]); intros data'; eexists; cbn;
    now rewrite lookup_insert_eq.
Qed.

Lemma upload_from_file_command_witness :
  spawned (@upload_from_file loopback_os (sample_client OSS) "full/empty"
             "empty.txt" false
             (set_files {[ "empty.txt" := [] ]} (sample_world ∅))).2
  = [ {| args := [ "/tools/xstore/bin/filestream-client";
                   "--meta.action=uploadOss"; "--meta.sink=backup";
                   "--meta.filename=full/empty";
                   "--hostInfoFilePath=/tools/xstore/hostinfo";
                   "--meta.ossBufferSize=0" ];
         input := []; returncode := 0 |} ] ∧
  (@upload_from_file loopback_os (sample_client OSS) "full/empty"
     "empty.txt" false
     (set_files {[ "empty.txt" := [] ]} (sample_world ∅))).1 = Ok () ∧
  buffer_flags [ "/tools/xstore/bin/filestream-client";
                 "--meta.action=uploadOss"; "--meta.sink=backup";
                 "--meta.filename=full/empty";
                 "--hostInfoFilePath=/tools/xstore/hostinfo";
                 "--meta.ossBufferSize=0" ]
  = ["--meta.ossBufferSize=0"].
Proof.
  destruct (@upload_from_file_command loopback_os sample_context OSS "backup"
              (sample_client OSS) "full/empty" "empty.txt" false
              (set_files {[ "empty.txt" := [] ]} (sample_world ∅))
              [ "/tools/xstore/bin/filestream-client";
                "--meta.action=uploadOss"; "--meta.sink=backup";
                "--meta.filename=full/empty";
                "--hostInfoFilePath=/tools/xstore/hostinfo";
                "--meta.ossBufferSize=0" ]
              [] [] 0 (<["--meta.filename=full/empty" := []]> ∅))
    as (Hspawned & Hresult & _ & Hflags);
    [ reflexivity | reflexivity | apply not_elem_of_empty
    | vm_compute; reflexivity | vm_compute; reflexivity | ].
  split; [exact Hspawned|]. split; [exact Hresult | exact Hflags].
Defined.

Lemma download_to_file_touches_only_local_witness :
  open_fds (@download_to_file loopback_os (sample_client OSS)
              "full/backup.xbstream" "b.txt" false (sample_world ∅)).2 = ∅ ∧
  files (@download_to_file loopback_os (sample_client OSS)
           "full/backup.xbstream" "b.txt" false (sample_world ∅)).2 !! "a.txt"
  = Some abc.
Proof.
  destruct (@download_to_file_touches_only_local loopback_os
              (sample_client OSS) "full/backup.xbstream" "b.txt" false
              (sample_world ∅)) as [Hfds Hfiles].
  split; [exact Hfds|].
  rewrite (Hfiles "a.txt") by discriminate. reflexivity.
Defined.

(** A failed download onto an existing file: nothing is stored under the
    name, the child exits with 1, the call raises, and [a.txt] has lost
    its three bytes. *)
Lemma download_to_file_overwrites_witness :
  (@download_to_file loopback_os (sample_client OSS) "full/backup.xbstream"
     "a.txt" false (sample_world ∅)).1
  = Raise (FilestreamException "Failed to download, return code: 1") ∧
  files (@download_to_file loopback_os (sample_client OSS)
           "full/backup.xbstream" "a.txt" false (sample_world ∅)).2 !! "a.txt"
  = Some [].
Proof.
  pose proof (@download_to_file_overwrites loopback_os (sample_client OSS)
                "full/backup.xbstream" "a.txt" false (sample_world ∅)
                [ "/tools/xstore/bin/filestream-client";
                  "--meta.action=downloadOss"; "--meta.sink=backup";
                  "--meta.filename=full/backup.xbstream";
                  "--hostInfoFilePath=/tools/xstore/hostinfo" ]) as Hrun.
  cbn [unwritable sample_world] in Hrun.
  specialize (Hrun ltac:(intros Hin; apply elem_of_singleton in Hin;
                         discriminate Hin) eq_refl).
  exact Hrun.
Defined.

Lemma upload_from_string_echo_missing_witness :
  @upload_from_string no_binary_os (sample_client OSS) "meta/binlog.idx"
    "hello" false (@sample_world no_binary_os tt)
  = (Raise (OSError "echo"), @sample_world no_binary_os tt).
Proof.
  apply (@upload_from_string_echo_missing no_binary_os (sample_client OSS)
           "meta/binlog.idx" "hello" false (@sample_world no_binary_os tt)).
  reflexivity.
Defined.

(** With a broken [echo] the upload still succeeds, of nothing. *)
Lemma upload_from_string_ignores_echo_status_witness :
  (@upload_from_string failing_echo_os (sample_client OSS) "meta/binlog.idx"
     "hello" false (sample_world ∅)).1 = Ok () ∧
  spawned (@upload_from_string failing_echo_os (sample_client OSS)
             "meta/binlog.idx" "hello" false (sample_world ∅)).2
  = [ {| args := ["echo"; "hello"]; input := []; returncode := 1 |};
      {| args := [ "/tools/xstore/bin/filestream-client";
                   "--meta.action=uploadOss"; "--meta.sink=backup";
                   "--meta.filename=meta/binlog.idx";
                   "--hostInfoFilePath=/tools/xstore/hostinfo";
                   "--meta.ossBufferSize=102400" ];
         input := []; returncode := 0 |} ].
Proof.
  apply (@upload_from_string_ignores_echo_status failing_echo_os
           (sample_client OSS) "meta/binlog.idx" "hello" false
           (sample_world ∅)
           [ "/tools/xstore/bin/filestream-client";
             "--meta.action=uploadOss"; "--meta.sink=backup";
             "--meta.filename=meta/binlog.idx";
             "--hostInfoFilePath=/tools/xstore/hostinfo";
             "--meta.ossBufferSize=102400" ]
           [] [] 1 0 ∅ (<["--meta.filename=meta/binlog.idx" := []]> ∅));
    reflexivity.
Defined.

Lemma logger_only_logs_witness :
  log (@upload_from_stdin loopback_os (sample_client S3)
         "full/backup.xbstream" (InPipe abc) true false "3"
         (sample_world ∅)).2
  = [ ("Upload command: ",
       [ "/tools/xstore/bin/filestream-client";
         "--meta.action=uploadMinio"; "--meta.sink=backup";
         "--meta.filename=full/backup.xbstream";
         "--hostInfoFilePath=/tools/xstore/hostinfo";
         "--meta.minioBufferSize=3" ]) ] ∧
  log (@download_to_stdout loopback_os (sample_client S3)
         "full/backup.xbstream" OutPipe true (sample_world ∅)).2
  = [ ("Download command: ",
       [ "/tools/xstore/bin/filestream-client";
         "--meta.action=downloadMinio"; "--meta.sink=backup";
         "--meta.filename=full/backup.xbstream";
         "--hostInfoFilePath=/tools/xstore/hostinfo" ]) ].
Proof.
  destruct (@logger_only_logs loopback_os (sample_client S3)
              "full/backup.xbstream" (InPipe abc) OutPipe false "3"
              (sample_world ∅))
    as ((_ & _ & _ & Hup) & (_ & _ & _ & Hdown)).
  split; [apply (Hup _ eq_refl) | apply (Hdown _ eq_refl)].
Defined.

Lemma action_argument_identifies_witness :
  [ "/tools/xstore/bin/filestream-client"; "--meta.action=uploadOss";
    "--meta.sink=backup"; "--meta.filename=full/a";
    "--hostInfoFilePath=/tools/xstore/hostinfo" ] !! 1%nat
  ≠ [ "/tools/xstore/bin/filestream-client"; "--meta.action=downloadMinio";
      "--meta.sink=backup"; "--meta.filename=full/b";
      "--hostInfoFilePath=/tools/xstore/hostinfo" ] !! 1%nat.
Proof.
  apply (@action_argument_identifies sample_context sample_context OSS S3
           "backup" "backup" (sample_client OSS) (sample_client S3)
           "full/a" "full/b" false false "" ""
           [ "/tools/xstore/bin/filestream-client"; "--meta.action=uploadOss";
             "--meta.sink=backup"; "--meta.filename=full/a";
             "--hostInfoFilePath=/tools/xstore/hostinfo" ]
           [ "/tools/xstore/bin/filestream-client";
             "--meta.action=uploadMinio"; "--meta.sink=backup";
             "--meta.filename=full/b";
             "--hostInfoFilePath=/tools/xstore/hostinfo" ]
           [ "/tools/xstore/bin/filestream-client";
             "--meta.action=downloadOss"; "--meta.sink=backup";
             "--meta.filename=full/a";
             "--hostInfoFilePath=/tools/xstore/hostinfo" ]
           [ "/tools/xstore/bin/filestream-client";
             "--meta.action=downloadMinio"; "--meta.sink=backup";
             "--meta.filename=full/b";
             "--hostInfoFilePath=/tools/xstore/hostinfo" ]);
    reflexivity.
Defined.

Lemma string_upload_download_roundtrip_witness :
  ∃ w1 w2,
    @upload_from_string loopback_os (sample_client SFTP) "meta/binlog.idx"
      "hello" false (sample_world ∅) = (Ok (), w1) ∧
    @download_to_file loopback_os (sample_client SFTP) "meta/binlog.idx"
      "b.txt" false w1 = (Ok (), w2) ∧
    files w2 !! "b.txt"
      = Some (String.list_byte_of_string "hello" ++ [newline]) ∧
    ∀ p, p ≠ "b.txt" → files w2 !! p = files (@sample_world loopback_os ∅) !! p.
Proof.
  apply (@string_upload_download_roundtrip loopback_os sample_context SFTP
           "backup" (sample_client SFTP) "meta/binlog.idx" "hello" "b.txt"
           false (sample_world ∅) 0 ∅).
  - reflexivity.
  - reflexivity.
  - intros up down data e. apply loopback_sends_back.
  - cbn [unwritable sample_world]. intros Hin.
    apply elem_of_singleton in Hin. discriminate Hin.
Defined.

(** ** Buffer-size flags across backends *)

(** A client never passes the buffer-size flag of another backend: no
    argument of an OSS or SFTP client's upload command starts with
    [--meta.minioBufferSize=], none of an S3 or SFTP client's with
    [--meta.ossBufferSize=], whatever the optional arguments are.  Called
    with the defaults ([is_string_input=False], [file_size=""]) the upload
    command is the five fixed elements on every backend. *)
Theorem upload_cmd_flags_of_own_backend (context : Context)
    (b : BackupStorage) (sink : string) (self : FileStreamClient)
    (remote_path : string) (is_string_input : bool) (file_size : string)
    (cmd : list string) :
  FileStreamClient__init__ context (PyEnum b) sink = Ok self →
  upload_cmd self remote_path is_string_input file_size = Ok cmd →
  (b ≠ S3 →
   Forall (λ arg, String.prefix "--meta.minioBufferSize=" arg = false)
          (tail cmd)) ∧
  (b ≠ OSS →
   Forall (λ arg, String.prefix "--meta.ossBufferSize=" arg = false)
          (tail cmd)) ∧
  (is_string_input = false → file_size = "" →
   buffer_flags cmd = [] ∧ length cmd = 5%nat).
Proof.
  intros Hinit Hcmd.
  destruct (upload_cmd_constructed _ _ _ _ remote_path is_string_input
              file_size Hinit) as (act & _ & Hbuilt).
  rewrite Hcmd in Hbuilt.
  match type of Hbuilt with Ok _ = Ok ?built =>
    assert (cmd = built) as -> by congruence end.
  rewrite buffer_flags_app by discriminate.
  rewrite base_cmd_no_buffer_flag, length_app.
  destruct b, is_string_input, (bool_decide (file_size = "")) eqn:Hsize;
    cbn [tail app base_cmd length List.filter];
    (split; [intros Hb; try congruence; repeat constructor|]);
    (split; [intros Hb; try congruence; repeat constructor|]);
    intros His Hfs; try discriminate His;
    try (apply bool_decide_eq_false in Hsize; contradiction);
    now split.
Qed.

Lemma upload_cmd_flags_of_own_backend_witness :
  Forall (λ arg, String.prefix "--meta.ossBufferSize=" arg = false)
         (tail [ "/tools/xstore/bin/filestream-client";
                 "--meta.action=uploadMinio"; "--meta.sink=backup";
                 "--meta.filename=full/backup.xbstream";
                 "--hostInfoFilePath=/tools/xstore/hostinfo";
                 "--meta.minioBufferSize=102400";
                 "--meta.minioBufferSize=4096" ]).
Proof.
  destruct (@upload_cmd_flags_of_own_backend sample_context S3 "backup"
              (sample_client S3) "full/backup.xbstream" true "4096"
              [ "/tools/xstore/bin/filestream-client";
                "--meta.action=uploadMinio"; "--meta.sink=backup";
                "--meta.filename=full/backup.xbstream";
                "--hostInfoFilePath=/tools/xstore/hostinfo";
                "--meta.minioBufferSize=102400";
                "--meta.minioBufferSize=4096" ] eq_refl eq_refl)
    as (_ & Hoss & _).
  apply Hoss. discriminate.
Defined.
